(** * PDF_Analyser: the orchestration layer of the document question-answering
    backend, embedded from [Backend/backend/main.py] (the plain variant) and
    [Backend/backend/Mock.py] (the variant with bearer-token authentication
    and chat history).

    Layout of the development:
    - [Py]: the fragment of Python the two files rely on (strings, exception
      classes, [os.path] and the staging directory);
    - [Services]: the external collaborators (document loaders, text splitter,
      embedding index, chat model, retrieval chain, token library), which the
      repository only calls;
    - [Handler]: the state-and-exception monad the request handlers run in;
    - [Main] and [Mock]: the two source files, definition by definition;
    - the properties, grouped by component. *)

From Stdlib Require Import ZArith NArith Ascii Bool Lia.
From Stdlib Require List.
From stdpp Require Import base option list strings gmap.

Local Open Scope Z_scope.

(** ** Python strings

    A [str] is modelled as a [string] whose characters are the code points
    below 256; on that range [str.lower] and [str.isspace] are the two tables
    below. *)

Module Py.

Definition chr (n : N) : ascii := ascii_of_N n.
Definition ord (c : ascii) : N := N_of_ascii c.

(** [c.lower()] for one character: A-Z, and the Latin-1 capitals
    U+00C0..U+00DE except the multiplication sign U+00D7, move up by 32. *)
Definition lower_char (c : ascii) : ascii :=
  let n := ord c in
  if ((65 <=? n) && (n <=? 90))%N then chr (n + 32)
  else if ((192 <=? n) && (n <=? 222) && negb (n =? 215))%N then chr (n + 32)
  else c.

(** [s.lower()] *)
Fixpoint lower (s : string) : string :=
  match s with
  | EmptyString => EmptyString
  | String c s' => String (lower_char c) (lower s')
  end.

(** [c.isspace()] for one character: TAB, LF, VT, FF, CR, the separators
    U+001C..U+001F, SPACE, NEL (U+0085) and NBSP (U+00A0). *)
Definition isspace_char (c : ascii) : bool :=
  let n := ord c in
  (((9 <=? n) && (n <=? 13)) || ((28 <=? n) && (n <=? 32))
   || (n =? 133) || (n =? 160))%N.

(** [s.lstrip()] *)
Fixpoint lstrip (s : string) : string :=
  match s with
  | EmptyString => EmptyString
  | String c s' => if isspace_char c then lstrip s' else s
  end.

Fixpoint rev (s : string) : string :=
  match s with
  | EmptyString => EmptyString
  | String c s' => rev s' +:+ String c EmptyString
  end.

(** [s.rstrip()] and [s.strip()] *)
Definition rstrip (s : string) : string := rev (lstrip (rev s)).
Definition strip (s : string) : string := rstrip (lstrip s).

(** Truth value of a [str]: the empty string is falsy. *)
Definition truthy (s : string) : bool :=
  match s with EmptyString => false | String _ _ => true end.

(** [s.split(sep)] for a one-character separator: the pieces between the
    occurrences of [sep], always at least one piece. *)
Fixpoint split (sep : ascii) (s : string) : list string :=
  match s with
  | EmptyString => [EmptyString]
  | String c s' =>
      if Ascii.eqb c sep then EmptyString :: split sep s'
      else match split sep s' with
           | [] => [String c EmptyString]
           | piece :: pieces => String c piece :: pieces
           end
  end.

(** [l[-1]] on a list of strings ([IndexError] cannot arise on the result of
    [split], which is never empty; the default stands for it). *)
Definition last_item (l : list string) : string := List.last l EmptyString.

(** [x in l] for a list of strings *)
Definition in_list (x : string) (l : list string) : bool :=
  existsb (String.eqb x) l.

(** Truth value of a name bound to [None] or to an object that defines
    neither [__bool__] nor [__len__]. *)
Definition truthy_obj {A} (o : option A) : bool :=
  match o with Some _ => true | None => false end.

(** [c in s] for a character *)
Fixpoint contains (c : ascii) (s : string) : bool :=
  match s with
  | EmptyString => false
  | String c' s' => Ascii.eqb c' c || contains c s'
  end.

(** [s.startswith(c)] for a character *)
Definition startswith (c : ascii) (s : string) : bool :=
  match s with
  | EmptyString => false
  | String c' _ => Ascii.eqb c' c
  end.

(** [s.endswith(c)] for a character *)
Definition endswith (c : ascii) (s : string) : bool := startswith c (rev s).

(** ** Exceptions

    The classes the two files raise or name in an [except] clause, with the
    part of the class hierarchy that decides which clause catches what. *)

Inductive exn_class :=
| Exception
| ValueError
| RuntimeError
| TypeError
| OSError
| FileNotFoundError
| AttributeError.

Definition exn_class_eqb (a b : exn_class) : bool :=
  match a, b with
  | Exception, Exception | ValueError, ValueError
  | RuntimeError, RuntimeError | TypeError, TypeError | OSError, OSError
  | FileNotFoundError, FileNotFoundError
  | AttributeError, AttributeError => true
  | _, _ => false
  end.

(** The direct base class. *)
Definition base (c : exn_class) : option exn_class :=
  match c with
  | Exception => None
  | FileNotFoundError => Some OSError
  | _ => Some Exception
  end.

(** [issubclass(c, d)]; the hierarchy has depth two. *)
Definition issubclass (c d : exn_class) : bool :=
  exn_class_eqb c d
  || match base c with
     | None => false
     | Some b => exn_class_eqb b d
                 || match base b with
                    | None => false
                    | Some b' => exn_class_eqb b' d
                    end
     end.

(** A raised exception: its class and its message, [str(e)]. *)
Record exn := Exn { exn_cls : exn_class; str : string }.

Definition isinstance (e : exn) (c : exn_class) : bool :=
  issubclass (exn_cls e) c.

(** The result of a call that may raise. *)
Definition result (A : Type) : Type := exn + A.

(** ** [os.path] and the file system

    The file system binds path strings to the bytes of regular files.  This
    is the disk as far as the two handlers need it for the session state
    and the answers they give; it is an idealisation of a real disk in three
    respects, and the properties below are read with them in mind:
    directories are not represented (so [os.path.exists] is false and
    [open] is never refused for a path such as [uploads/.]); two different
    strings are two different files (no [.], [..] or link resolution); and
    unlinking a file that is there always succeeds. *)

Abbreviation bytes := (list Byte.byte).
Abbreviation filesystem := (gmap string bytes).

(** [os.path.join(a, b)] for POSIX paths. *)
Definition os_path_join (a b : string) : string :=
  if startswith "/" b then b
  else if negb (truthy a) || endswith "/" a then a +:+ b
  else a +:+ "/" +:+ b.

(** [os.path.exists(p)], for regular files *)
Definition os_path_exists (p : string) (fs : filesystem) : bool :=
  bool_decide (is_Some (fs !! p)).

(** [os.remove(p)]: unlinks the file, [FileNotFoundError] when there is
    none; a refusal to unlink a file that is there is not represented. *)
Definition os_remove (p : string) (fs : filesystem) : result filesystem :=
  match fs !! p with
  | Some _ => inr (delete p fs)
  | None => inl (Exn FileNotFoundError ("No such file or directory: " +:+ p))
  end.

End Py.

(** ** The external collaborators

    Text extraction, chunking, embedding, the similarity index, the chat model,
    the retrieval chain and the token library are third-party code: the
    repository constructs them and calls them.  They are taken as an
    interface; every call may raise. *)

Module Ext.
Import Py.

(** The four document loaders [get_loader_for_file] can construct, each bound
    to the path it will read. *)
Inductive Loader :=
| PyPDFLoader (file_path : string)
| Docx2txtLoader (file_path : string)
| TextLoader (file_path : string)
| CSVLoader (file_path : string).

(** [RecursiveCharacterTextSplitter(chunk_size=.., chunk_overlap=..,
    length_function=len)] *)
Record TextSplitter := RecursiveCharacterTextSplitter {
  chunk_size : nat;
  chunk_overlap : nat
}.

(** [OpenAIEmbeddings(openai_api_key=.., model=..)] *)
Record Embeddings := OpenAIEmbeddings {
  embeddings_api_key : string;
  embeddings_model : option string
}.

(** The keyword arguments of [ChatOpenAI(..)] *)
Record ChatArgs := ChatOpenAIArgs {
  temperature : Z;
  chat_api_key : string;
  chat_model : option string
}.

(** A claim of a token payload, as [create_access_token] writes them: text
    (the subject) or a time in seconds since the epoch (the expiry). *)
Inductive claim :=
| CStr (s : string)
| CTime (t : Z).

(** How writing the upload to disk can go wrong: [open] raises and nothing
    is written, or the copy raises after [written] bytes reached the file. *)
Inductive write_fault :=
| OpenFails (e : exn)
| CopyFails (written : nat) (e : exn).

Class Services : Type := {
  Document : Type;
  Index : Type;
  Llm : Type;
  Retriever : Type;
  Chain : Type;
  (** the disk, when [path] is opened for writing and [data] copied to it *)
  write_fault_of : string -> bytes -> option write_fault;
  (** [loader.load()] *)
  load : Loader -> filesystem -> result (list Document);
  (** [text_splitter.split_documents(documents)] *)
  split_documents : TextSplitter -> list Document -> result (list Document);
  (** [FAISS.from_documents(texts, embeddings)] *)
  FAISS_from_documents : list Document -> Embeddings -> result Index;
  (** [ChatOpenAI(..)] *)
  ChatOpenAI : ChatArgs -> result Llm;
  (** [vector_store.as_retriever()] *)
  as_retriever : Index -> Retriever;
  (** [ConversationalRetrievalChain.from_llm(llm=.., retriever=..,
      return_source_documents=..)] *)
  from_llm : Llm -> Retriever -> bool -> result Chain;
  (** [qa_chain({"question": .., "chat_history": ..})], giving
      [result["answer"]] and [result["source_documents"]] *)
  call_chain : Chain -> string -> list (gmap string string) ->
               result (string * list Document);
  (** [doc.page_content] *)
  page_content : Document -> string;
  (** [jwt.encode(payload, key, algorithm=..)] *)
  jwt_encode : gmap string claim -> string -> string -> string;
  (** [jwt.decode(token, key, algorithms=..)]; the library verifies the
      signature and the expiry and raises one of its own exceptions when
      they do not hold *)
  jwt_decode : string -> string -> list string -> result (gmap string claim)
}.

(** The expression [jwt.JWTError].  The module that [import jwt] binds
    (PyJWT, whose [encode] and [decode] the source calls) has no attribute
    of that name: evaluating the expression raises [AttributeError]. *)
Definition jwt_JWTError : result exn_class :=
  inl (Exn AttributeError "module 'jwt' has no attribute 'JWTError'").

End Ext.

(** ** Request handlers: session state, exceptions, responses *)

Module Handler.
Import Py Ext.

(** What the framework makes of a handler run: the returned body, the
    [HTTPException] the handler raised, or an exception that escaped it. *)
Inductive response (A : Type) :=
| Return (body : A)
| HTTPException (status_code : Z) (detail : string)
| Unhandled (e : exn).
Arguments Return {A} body.
Arguments HTTPException {A} status_code detail.
Arguments Unhandled {A} e.

Section WithServices.
Context `{SV : Services}.

(** The module-level globals [vector_store] and [qa_chain] (both [None] at
    start), and the disk. *)
Record world := World {
  vector_store : option Index;
  qa_chain : option Chain;
  files : filesystem
}.

Definition set_vector_store (v : option Index) (w : world) : world :=
  World v (qa_chain w) (files w).
Definition set_qa_chain (c : option Chain) (w : world) : world :=
  World (vector_store w) c (files w).
Definition set_files (fs : filesystem) (w : world) : world :=
  World (vector_store w) (qa_chain w) fs.

(** A block of statements: it reads and writes the world and either finishes
    with a value or raises. *)
Definition M (A : Type) : Type := world -> result A * world.

Definition ret {A} (a : A) : M A := fun w => (inr a, w).
Definition raise {A} (e : exn) : M A := fun w => (inl e, w).
Definition bind {A B} (m : M A) (k : A -> M B) : M B :=
  fun w => match m w with
           | (inr a, w') => k a w'
           | (inl e, w') => (inl e, w')
           end.
(** A call into a collaborator that touches no global. *)
Definition call {A} (r : result A) : M A := fun w => (r, w).

(** A handler: a block whose exceptions have been turned into a response. *)
Definition H (A : Type) : Type := world -> response A * world.

(** [try: body  except ..: handler] where the handler re-raises as an
    [HTTPException] (or lets the exception through). *)
Definition try_except {A} (body : M A) (handler : exn -> response A) : H A :=
  fun w => match body w with
           | (inr a, w') => (Return a, w')
           | (inl e, w') => (handler e, w')
           end.

(** [.. finally: cleanup]: the cleanup always runs; when it raises, its
    exception replaces whatever the block produced. *)
Definition finally {A} (h : H A) (cleanup : M unit) : H A :=
  fun w => let '(r, w1) := h w in
           match cleanup w1 with
           | (inr _, w2) => (r, w2)
           | (inl e, w2) => (Unhandled e, w2)
           end.

(** [with open(file_path, "wb") as buffer: shutil.copyfileobj(file.file,
    buffer)] *)
Definition save_upload (file_path : string) (data : bytes) : M unit :=
  fun w => match write_fault_of file_path data with
           | None => (inr tt, set_files (<[file_path := data]> (files w)) w)
           | Some (OpenFails e) => (inl e, w)
           | Some (CopyFails n e) =>
               (inl e, set_files (<[file_path := take n data]> (files w)) w)
           end.

(** [os.remove(file_path)] as a statement *)
Definition remove (file_path : string) : M unit :=
  fun w => match os_remove file_path (files w) with
           | inr fs => (inr tt, set_files fs w)
           | inl e => (inl e, w)
           end.

End WithServices.

Declare Scope handler_scope.
Delimit Scope handler_scope with handler.
Notation "'let!' x ':=' m 'in' k" := (bind m (fun x => k))
  (at level 10, x name, m at level 100, k at level 200,
   format "'[v' 'let!'  x  ':='  m  'in' '/' k ']'") : handler_scope.
Notation "'run!' m 'in' k" := (bind m (fun _ => k))
  (at level 10, m at level 100, k at level 200,
   format "'[v' 'run!'  m  'in' '/' k ']'") : handler_scope.

End Handler.

(** ** [main.py] *)

Module Main.
Import Py Ext Handler.
Local Open Scope handler_scope.

Definition UPLOAD_DIR : string := "uploads".

Definition get_loader_for_file (file_path : string) : result Loader :=
  let file_extension := lower (last_item (split "." file_path)) in
  if String.eqb file_extension "pdf" then inr (PyPDFLoader file_path)
  else if in_list file_extension ["docx"; "doc"] then
    inr (Docx2txtLoader file_path)
  else if String.eqb file_extension "txt" then inr (TextLoader file_path)
  else if String.eqb file_extension "csv" then inr (CSVLoader file_path)
  else inl (Exn ValueError ("Unsupported file format: " +:+ file_extension)).

Definition openai_api_key : string := "".

Definition embeddings : Embeddings :=
  OpenAIEmbeddings openai_api_key (Some "text-embedding-ada-002").

(** The body of an upload request and of an answer. *)
Record UploadFile := { filename : string; file : bytes }.
Record UploadResponse := { message : string }.
Record AskResponse := { answer : string; context : list string }.

Section WithServices.
Context `{SV : Services}.

(** Module initialisation, in the process environment [environ]: the key is
    the literal above, and the import stops with [RuntimeError] when it is
    empty; otherwise the two globals start as [None].  ([os.makedirs] of the
    staging directory is left out: the disk holds files only.) *)
Definition startup (environ : gmap string string) (disk : filesystem)
  : result world :=
  if negb (truthy openai_api_key) then
    inl (Exn RuntimeError "Please set a valid OpenAI API key")
  else inr (World None None disk).

(** Lines 73-103 of [upload_file]: everything in the [try] after the file
    has been saved.  The [print] calls, here and below, are left out. *)
Definition process (file_path : string) : M UploadResponse :=
  let! loader := call (get_loader_for_file file_path) in
  let! documents := (fun w => (load loader (files w), w)) in
  let text_splitter := RecursiveCharacterTextSplitter 1000 200 in
  let! texts := call (split_documents text_splitter documents) in
  let! index := call (FAISS_from_documents texts embeddings) in
  run! (fun w => (inr tt, set_vector_store (Some index) w)) in
  let! llm := call (ChatOpenAI
                      (ChatOpenAIArgs 0 openai_api_key (Some "gpt-3.5-turbo"))) in
  let! chain := call (from_llm llm (as_retriever index) true) in
  run! (fun w => (inr tt, set_qa_chain (Some chain) w)) in
  ret {| message := "File processed successfully" |}.

Definition upload_file (f : UploadFile) : H UploadResponse :=
  let file_path := os_path_join UPLOAD_DIR (filename f) in
  finally
    (try_except
       (run! save_upload file_path (file f) in process file_path)
       (fun e =>
          if isinstance e ValueError then HTTPException 400 (str e)
          else if isinstance e Exception then
            HTTPException 500 ("Internal Server Error: " +:+ str e)
          else Unhandled e))
    (fun w => if os_path_exists file_path (files w) then remove file_path w
              else ret tt w).

(** [qa_chain({..})] on the global, which may still be [None]. *)
Definition call_qa_chain (question : string)
    (chat_history : list (gmap string string))
  : M (string * list Document) :=
  fun w => match qa_chain w with
           | Some chain => (call_chain chain question chat_history, w)
           | None => (inl (Exn TypeError "'NoneType' object is not callable"), w)
           end.

Definition ask_question (question : string) : H AskResponse :=
  fun w =>
    if negb (truthy_obj (vector_store w)) || negb (truthy_obj (qa_chain w))
    then (HTTPException 400 "No document has been uploaded yet", w)
    else if negb (truthy (strip question))
    then (HTTPException 422 "Question cannot be empty", w)
    else
      try_except
        (let! result := call_qa_chain question [] in
         let context := map page_content (snd result) in
         ret {| answer := fst result; context := context |})
        (fun e =>
           if isinstance e Exception then
             HTTPException 500 ("Internal Server Error: " +:+ str e)
           else Unhandled e)
        w.

(** A sequence of upload requests served one after the other. *)
Fixpoint serve_uploads (fs : list UploadFile) (w : world)
  : list (response UploadResponse) * world :=
  match fs with
  | [] => ([], w)
  | f :: fs' =>
      let '(r, w1) := upload_file f w in
      let '(rs, w2) := serve_uploads fs' w1 in
      (r :: rs, w2)
  end.

End WithServices.
End Main.

(** ** [Mock.py] *)

Module Mock.
Import Py Ext Handler.
Local Open Scope handler_scope.

(** Authentication settings *)
Definition SECRET_KEY : string := "your-secret-key".
Definition ALGORITHM : string := "HS256".
Definition ACCESS_TOKEN_EXPIRE_MINUTES : Z := 30.

(** An entry of the user table, the form posted to [/token], the token
    returned by it, and the body of [/ask]. *)
Record UserEntry := { username : string; hashed_password : string }.
Record OAuth2PasswordRequestForm := {
  form_username : string;
  form_password : string
}.
Record Token := { access_token : string; token_type : string }.
Record QuestionRequest := {
  question : string;
  chat_history : list (gmap string string)
}.

(** User database *)
Definition users_db : gmap string UserEntry :=
  {[ "admin" := {| username := "admin";
                   hashed_password := "hashed_admin_password" |} ]}.

Definition UPLOAD_DIR : string := "uploads".

Definition get_loader_for_file (file_path : string) : result Loader :=
  let file_extension := lower (last_item (split "." file_path)) in
  if String.eqb file_extension "pdf" then inr (PyPDFLoader file_path)
  else if in_list file_extension ["docx"; "doc"] then
    inr (Docx2txtLoader file_path)
  else if String.eqb file_extension "txt" then inr (TextLoader file_path)
  else if String.eqb file_extension "csv" then inr (CSVLoader file_path)
  else inl (Exn ValueError ("Unsupported file format: " +:+ file_extension)).

Definition openai_api_key : string := "".

Definition embeddings : Embeddings := OpenAIEmbeddings openai_api_key None.

Section WithServices.
Context `{SV : Services}.

(** Module initialisation, in the process environment [environ]. *)
Definition startup (environ : gmap string string) (disk : filesystem)
  : result world :=
  if negb (truthy openai_api_key) then
    inl (Exn RuntimeError "OPENAI_API_KEY environment variable is not set")
  else inr (World None None disk).

(** [create_access_token(data)] at time [utcnow] (seconds). *)
Definition create_access_token (data : gmap string claim) (utcnow : Z)
  : string :=
  let to_encode := data in
  let expire := utcnow + ACCESS_TOKEN_EXPIRE_MINUTES * 60 in
  let to_encode := <["exp" := CTime expire]> to_encode in
  jwt_encode to_encode SECRET_KEY ALGORITHM.

(** What the [try] block of [get_current_user] can raise: an exception of
    the token library, or one of the two [HTTPException]s of the block
    itself. *)
Inductive raised :=
| Library (e : exn)
| Http (status_code : Z) (detail : string).

(** The [try] block of [get_current_user(token)]. *)
Definition current_user_of (token : string) : raised + UserEntry :=
  match jwt_decode token SECRET_KEY [ALGORITHM] with
  | inl e => inl (Library e)
  | inr payload =>
      match payload !! "sub" with
      | None => inl (Http 401 "Invalid authentication credentials")
      | Some sub =>
          match (match sub with
                 | CStr name => users_db !! name
                 | CTime _ => None
                 end) with
          | None => inl (Http 401 "User not found")
          | Some user => inr user
          end
      end
  end.

(** [get_current_user(token)].  Whatever the [try] block raises reaches
    [except jwt.JWTError:], whose class expression is evaluated before
    anything is compared with it. *)
Definition get_current_user (token : string) : response UserEntry :=
  match current_user_of token with
  | inr user => Return user
  | inl r =>
      match jwt_JWTError with
      | inl attribute_error => Unhandled attribute_error
      | inr JWTError =>
          match r with
          | Library e =>
              if isinstance e JWTError then
                HTTPException 401 "Invalid authentication credentials"
              else Unhandled e
          | Http status_code detail => HTTPException status_code detail
          end
      end
  end.

(** [POST /token] *)
Definition login (form_data : OAuth2PasswordRequestForm) (utcnow : Z)
  : response Token :=
  match users_db !! form_username form_data with
  | None => HTTPException 400 "Incorrect username or password"
  | Some user =>
      let access_token :=
        create_access_token {[ "sub" := CStr (username user) ]} utcnow in
      Return {| access_token := access_token; token_type := "bearer" |}
  end.

(** Lines 125-148 of [upload_file]: the body of the [try]. *)
Definition process (file_path : string) : M Main.UploadResponse :=
  let! loader := call (get_loader_for_file file_path) in
  let! documents := (fun w => (load loader (files w), w)) in
  let text_splitter := RecursiveCharacterTextSplitter 1000 200 in
  let! texts := call (split_documents text_splitter documents) in
  let! index := call (FAISS_from_documents texts embeddings) in
  run! (fun w => (inr tt, set_vector_store (Some index) w)) in
  let! llm := call (ChatOpenAI (ChatOpenAIArgs 0 openai_api_key None)) in
  let! chain := call (from_llm llm (as_retriever index) true) in
  run! (fun w => (inr tt, set_qa_chain (Some chain) w)) in
  ret {| Main.message := "File processed successfully" |}.

(** [upload_file(file, current_user)]: the file is saved before the [try]
    is entered, and the [finally] removes it without looking first. *)
Definition upload_file (f : Main.UploadFile) (current_user : UserEntry)
  : H Main.UploadResponse :=
  fun w =>
    let file_path := os_path_join UPLOAD_DIR (Main.filename f) in
    match save_upload file_path (Main.file f) w with
    | (inl e, w') => (Unhandled e, w')
    | (inr _, w') =>
        finally
          (try_except
             (process file_path)
             (fun e => if isinstance e Exception then HTTPException 500 (str e)
                       else Unhandled e))
          (remove file_path)
          w'
    end.

(** [ask_question(request, current_user)] *)
Definition ask_question (request : QuestionRequest) (current_user : UserEntry)
  : H Main.AskResponse :=
  fun w =>
    if negb (truthy_obj (vector_store w)) || negb (truthy_obj (qa_chain w))
    then (HTTPException 400 "No document has been uploaded yet", w)
    else
      try_except
        (let! result :=
           Main.call_qa_chain (question request) (chat_history request) in
         let context := map page_content (snd result) in
         ret {| Main.answer := fst result; Main.context := context |})
        (fun e => if isinstance e Exception then HTTPException 500 (str e)
                  else Unhandled e)
        w.

(** [Depends(get_current_user)]: the handler runs only once the token has
    been resolved to a user. *)
Definition depends_current_user {A} (token : string) (h : UserEntry -> H A)
  : H A :=
  fun w => match get_current_user token with
           | Return user => h user w
           | HTTPException status_code detail =>
               (HTTPException status_code detail, w)
           | Unhandled e => (Unhandled e, w)
           end.

(** [POST /upload] and [POST /ask] as the client sees them. *)
Definition post_upload (token : string) (f : Main.UploadFile)
  : H Main.UploadResponse :=
  depends_current_user token (upload_file f).
Definition post_ask (token : string) (request : QuestionRequest)
  : H Main.AskResponse :=
  depends_current_user token (ask_question request).

(** A sequence of authenticated upload requests served one after the
    other. *)
Fixpoint serve_uploads (fs : list Main.UploadFile) (u : UserEntry) (w : world)
  : list (response Main.UploadResponse) * world :=
  match fs with
  | [] => ([], w)
  | f :: fs' =>
      let '(r, w1) := upload_file f u w in
      let '(rs, w2) := serve_uploads fs' u w1 in
      (r :: rs, w2)
  end.

End WithServices.
End Mock.

(** ** Specification-level definitions

    What the properties below are stated against. *)

Module Spec.
Import Py Ext Handler.

(** The extension of a file name: its longest suffix without a dot (the
    text after the final dot, the whole name when it has none). *)
Fixpoint extension (s : string) : string :=
  match s with
  | EmptyString => EmptyString
  | String _ s' => if contains "." s then extension s' else s
  end.

(** The extraction capability selected for each supported extension. *)
Definition extractors : list (string * (string -> Loader)) :=
  [ ("pdf", PyPDFLoader); ("docx", Docx2txtLoader); ("doc", Docx2txtLoader);
    ("txt", TextLoader); ("csv", CSVLoader) ].

Fixpoint assoc {V} (k : string) (l : list (string * V)) : option V :=
  match l with
  | [] => None
  | (k', v) :: l' => if String.eqb k k' then Some v else assoc k l'
  end.

Definition extractor_for (ext : string) : option (string -> Loader) :=
  assoc (lower ext) extractors.

(** The supported extensions. *)
Definition supported : list string := ["pdf"; "docx"; "doc"; "txt"; "csv"].

(** A question that is empty or made of whitespace only. *)
Fixpoint blank (s : string) : bool :=
  match s with
  | EmptyString => true
  | String c s' => isspace_char c && blank s'
  end.

(** The session state never holds a pipeline without an index. *)
Definition consistent `{SV : Services} (w : world) : Prop :=
  truthy_obj (qa_chain w) = true -> truthy_obj (vector_store w) = true.

(** An upload request got through when the handler returned its body. *)
Definition succeeded {A} (r : response A) : bool :=
  match r with Return _ => true | _ => false end.

(** The handler let an exception escape. *)
Definition escaped {A} (r : response A) : bool :=
  match r with Unhandled _ => true | _ => false end.

Definition status_of {A} (r : response A) : option Z :=
  match r with HTTPException s _ => Some s | _ => None end.

(** The exception a failed write raises. *)
Definition fault_exn (fault : write_fault) : exn :=
  match fault with
  | OpenFails e => e
  | CopyFails _ e => e
  end.

(** What a failed write leaves at [path]: nothing new when [open] failed,
    the bytes that got through when the copy failed. *)
Definition after_fault (fault : write_fault) (path : string) (data : bytes)
    (fs : filesystem) : filesystem :=
  match fault with
  | OpenFails _ => fs
  | CopyFails n _ => <[path := take n data]> fs
  end.

(** Where an uploaded file is staged. *)
Definition staged (f : Main.UploadFile) : string :=
  os_path_join Main.UPLOAD_DIR (Main.filename f).

(** The response [main.py] maps the outcome of its [try] block to. *)
Definition main_reply {A} (r : result A) : response A :=
  match r with
  | inr body => Return body
  | inl e =>
      if isinstance e ValueError then HTTPException 400 (str e)
      else HTTPException 500 ("Internal Server Error: " +:+ str e)
  end.

(** The response [Mock.py] maps the outcome of its [try] block to. *)
Definition mock_reply {A} (r : result A) : response A :=
  match r with
  | inr body => Return body
  | inl e => HTTPException 500 (str e)
  end.

Section WithServices.
Context `{SV : Services}.

(** The first half of processing an upload, up to and including the index
    build: loader selection, extraction, chunking, embedding. *)
Definition build_index (get_loader : string -> result Loader)
    (emb : Embeddings) (file_path : string) (fs : filesystem)
  : result Index :=
  match get_loader file_path with
  | inl e => inl e
  | inr loader =>
      match load loader fs with
      | inl e => inl e
      | inr documents =>
          match split_documents (RecursiveCharacterTextSplitter 1000 200)
                  documents with
          | inl e => inl e
          | inr texts => FAISS_from_documents texts emb
          end
      end
  end.

(** The second half: constructing the chat model and the chain over the
    retriever of a fresh index. *)
Definition build_pipeline (args : ChatArgs) (index : Index) : result Chain :=
  match ChatOpenAI args with
  | inl e => inl e
  | inr llm => from_llm llm (as_retriever index) true
  end.

Definition main_chat_args : ChatArgs :=
  ChatOpenAIArgs 0 Main.openai_api_key (Some "gpt-3.5-turbo").
Definition mock_chat_args : ChatArgs :=
  ChatOpenAIArgs 0 Mock.openai_api_key None.

(** Where processing an upload stops, and the world it leaves: nothing is
    assigned until the index is built; [vector_store] is assigned as soon as
    it is; [qa_chain] only once the chain is built as well. *)
Definition processed (get_loader : string -> result Loader)
    (emb : Embeddings) (args : ChatArgs) (file_path : string) (w : world)
  : result Main.UploadResponse * world :=
  match build_index get_loader emb file_path (files w) with
  | inl e => (inl e, w)
  | inr index =>
      match build_pipeline args index with
      | inl e => (inl e, set_vector_store (Some index) w)
      | inr chain =>
          (inr {| Main.message := "File processed successfully" |},
           set_qa_chain (Some chain) (set_vector_store (Some index) w))
      end
  end.

(** Why a bearer token fails validation: the library raises for it (bad
    signature, malformed, expired), it carries no subject, or its subject
    is not a user. *)
Inductive rejected (token : string) : Prop :=
| unverifiable (e : exn) :
    jwt_decode token Mock.SECRET_KEY [Mock.ALGORITHM] = inl e ->
    rejected token
| missing_subject (payload : gmap string claim) :
    jwt_decode token Mock.SECRET_KEY [Mock.ALGORITHM] = inr payload ->
    payload !! "sub" = None ->
    rejected token
| unknown_subject (payload : gmap string claim) (name : string) :
    jwt_decode token Mock.SECRET_KEY [Mock.ALGORITHM] = inr payload ->
    payload !! "sub" = Some (CStr name) ->
    Mock.users_db !! name = None ->
    rejected token
| subject_not_text (payload : gmap string claim) (t : Z) :
    jwt_decode token Mock.SECRET_KEY [Mock.ALGORITHM] = inr payload ->
    payload !! "sub" = Some (CTime t) ->
    rejected token.

End WithServices.
End Spec.

(** ** A small instance of the collaborators

    Used to run the handlers on concrete requests.  Documents are their
    text, an index is the list of its chunks, a chain remembers the index it
    retrieves from; [chat_up] says whether the chat model can be
    constructed. *)

Module Demo.
Import Py Ext Handler.

Definition loader_path (l : Loader) : string :=
  match l with
  | PyPDFLoader p | Docx2txtLoader p | TextLoader p | CSVLoader p => p
  end.

Definition text_of (b : bytes) : string := String.string_of_list_byte b.

Definition services (chat_up : bool) : Services := {|
  Document := string;
  Index := list string;
  Llm := ChatArgs;
  Retriever := list string;
  Chain := list string;
  write_fault_of := fun _ _ => None;
  load := fun l fs =>
    match fs !! loader_path l with
    | Some b => inr [text_of b]
    | None => inl (Exn FileNotFoundError (loader_path l))
    end;
  split_documents := fun _ docs => inr docs;
  FAISS_from_documents := fun texts _ => inr texts;
  ChatOpenAI := fun args =>
    if chat_up then inr args
    else inl (Exn Exception "Could not import openai python package");
  as_retriever := fun index => index;
  from_llm := fun _ retriever _ => inr retriever;
  call_chain := fun chain question _ => inr ("I don't know.", chain);
  page_content := fun doc => doc;
  jwt_encode := fun payload _ _ =>
    match payload !! "sub" with
    | Some (CStr name) => "token-for-" +:+ name
    | _ => "token"
    end;
  jwt_decode := fun token _ _ =>
    if String.eqb token "token-for-admin" then
      inr {[ "sub" := CStr "admin" ]}
    else if String.eqb token "token-for-nobody" then
      inr {[ "sub" := CStr "nobody" ]}
    else if String.eqb token "token-without-subject" then inr ∅
    else if String.eqb token "token-expired" then
      inl (Exn Exception "Signature has expired")
    else inl (Exn Exception "Signature verification failed")
|}.

Definition sky : Main.UploadFile :=
  {| Main.filename := "sky.txt";
     Main.file := String.list_byte_of_string "The sky is blue." |}.

Definition grass : Main.UploadFile :=
  {| Main.filename := "grass.txt";
     Main.file := String.list_byte_of_string "Grass is green." |}.

Definition report_xyz : Main.UploadFile :=
  {| Main.filename := "report.xyz";
     Main.file := String.list_byte_of_string "data" |}.

Definition admin : Mock.UserEntry :=
  {| Mock.username := "admin";
     Mock.hashed_password := "hashed_admin_password" |}.

(** The world at start: both globals unset, an empty staging directory. *)
Definition fresh (chat_up : bool) : @world (services chat_up) :=
  @World (services chat_up) None None ∅.

(** The world once [sky] has been indexed. *)
Definition indexed (chat_up : bool) : @world (services chat_up) :=
  @World (services chat_up) (Some ["The sky is blue."])
         (Some ["The sky is blue."]) ∅.

(** The same collaborators over a disk that fails some writes. *)
Definition with_write_faults
    (faults : string -> bytes -> option write_fault) (S : Services)
  : Services := {|
  Document := @Document S;
  Index := @Index S;
  Llm := @Llm S;
  Retriever := @Retriever S;
  Chain := @Chain S;
  write_fault_of := faults;
  load := @load S;
  split_documents := @split_documents S;
  FAISS_from_documents := @FAISS_from_documents S;
  ChatOpenAI := @ChatOpenAI S;
  as_retriever := @as_retriever S;
  from_llm := @from_llm S;
  call_chain := @call_chain S;
  page_content := @page_content S;
  jwt_encode := @jwt_encode S;
  jwt_decode := @jwt_decode S
|}.

(** A disk that is full after four bytes of [uploads/full.txt]. *)
Definition flaky : Services :=
  with_write_faults
    (fun path _ =>
       if String.eqb path "uploads/full.txt" then
         Some (CopyFails 4 (Exn OSError "No space left on device"))
       else None)
    (services true).

Definition full : Main.UploadFile :=
  {| Main.filename := "full.txt";
     Main.file := String.list_byte_of_string "The sky is blue." |}.

(** An upload whose name has no dot. *)
Definition dotless : Main.UploadFile :=
  {| Main.filename := "PDF";
     Main.file := String.list_byte_of_string "%PDF-1.7" |}.

(** A disk that already holds two files, neither of them staged. *)
Definition cluttered : @world (services true) :=
  @World (services true) (Some ["The sky is blue."])
         (Some ["The sky is blue."])
         {[ "/srv/notes.txt" := String.list_byte_of_string "keep me";
            "uploads/other.txt" := String.list_byte_of_string "other" ]}.

Definition flaky_fresh : @world flaky := @World flaky None None ∅.

End Demo.

(** * Properties *)

Import Py Ext Handler.

#[local] Arguments String.append !_ _ / : simpl nomatch.

(** ** Strings: [split], the extension, [strip] *)

Section Strings.

Lemma split_nonempty sep s : split sep s <> [].
Proof.
  destruct s as [|c s]; simpl; [discriminate|].
  destruct (Ascii.eqb c sep); [discriminate|].
  destruct (split sep s); discriminate.
Qed.

(** A string without the separator is its own single piece. *)
Lemma split_without sep s : contains sep s = false -> split sep s = [s].
Proof.
  induction s as [|c s IH]; simpl; [reflexivity|].
  intros Hc. apply orb_false_iff in Hc as [Hc Hs].
  rewrite Hc, (IH Hs). reflexivity.
Qed.

(** A string with the separator has at least two pieces. *)
Lemma split_with sep s :
  contains sep s = true -> exists p q r, split sep s = p :: q :: r.
Proof.
  induction s as [|c s IH]; simpl; [discriminate|].
  destruct (Ascii.eqb c sep) eqn:Hc; simpl.
  - intros _. pose proof (split_nonempty sep s) as Hne.
    destruct (split sep s) as [|q r]; [congruence|]. eauto.
  - intros Hs. destruct (IH Hs) as (p & q & r & ->). eauto.
Qed.

(** [path.split(".")[-1]] is the extension. *)
Lemma last_item_split s : last_item (split "." s) = Spec.extension s.
Proof.
  unfold last_item.
  induction s as [|c s IH]; [reflexivity|].
  cbn [split Spec.extension contains].
  destruct (Ascii.eqb c ".") eqn:Hc; cbn [orb].
  - pose proof (split_nonempty "." s) as Hne.
    destruct (split "." s) as [|q r] eqn:Hs; [congruence|].
    rewrite <- IH. reflexivity.
  - destruct (contains "." s) eqn:Hd.
    + destruct (split_with _ _ Hd) as (p & q & r & Hs).
      rewrite <- IH, Hs. reflexivity.
    + rewrite (split_without _ _ Hd). reflexivity.
Qed.

Lemma extension_without s : contains "." s = false -> Spec.extension s = s.
Proof. destruct s; simpl; [reflexivity|]. intros ->. reflexivity. Qed.

Lemma extension_has_no_dot s : contains "." (Spec.extension s) = false.
Proof.
  induction s as [|c s IH]; [reflexivity|].
  cbn [Spec.extension]. destruct (contains "." (String c s)) eqn:Hd; auto.
Qed.

(** With a dot in the name, the extension is what follows the final one. *)
Lemma extension_after_dot s :
  contains "." s = true -> exists stem, s = stem +:+ "." +:+ Spec.extension s.
Proof.
  induction s as [|c s IH]; [discriminate|].
  intros Hd. cbn [Spec.extension]. rewrite Hd.
  destruct (contains "." s) eqn:Hs.
  - destruct (IH eq_refl) as [stem Hstem].
    exists (String c stem). cbn. f_equal. exact Hstem.
  - simpl in Hd. rewrite Hs, orb_false_r in Hd.
    apply Ascii.eqb_eq in Hd as ->.
    exists EmptyString. rewrite (extension_without _ Hs). reflexivity.
Qed.

Lemma contains_app c a b :
  contains c (a +:+ b) = contains c a || contains c b.
Proof.
  induction a as [|x a IH]; [reflexivity|].
  cbn. rewrite IH, orb_assoc. reflexivity.
Qed.

(** A prefix does not change the extension of a name that has a dot. *)
Lemma extension_app a b :
  contains "." b = true -> Spec.extension (a +:+ b) = Spec.extension b.
Proof.
  intros Hb. induction a as [|x a IH]; [reflexivity|].
  change (String x a +:+ b) with (String x (a +:+ b)).
  cbn [Spec.extension].
  assert (contains "." (String x (a +:+ b)) = true) as ->; [|exact IH].
  simpl. rewrite contains_app, Hb, !orb_true_r. reflexivity.
Qed.

(** Staging a file under [UPLOAD_DIR] keeps its extension, when it has a
    dot. *)
Lemma extension_staged name :
  contains "." name = true ->
  Spec.extension (os_path_join Main.UPLOAD_DIR name) = Spec.extension name.
Proof.
  intros Hd. unfold os_path_join.
  destruct (startswith "/" name); [reflexivity|].
  change (Spec.extension ("uploads/" +:+ name) = Spec.extension name).
  apply extension_app, Hd.
Qed.

Lemma append_empty s : s +:+ EmptyString = s.
Proof. induction s as [|x s IH]; simpl; [reflexivity|]. now rewrite IH. Qed.

Lemma append_assoc a b c : (a +:+ b) +:+ c = a +:+ (b +:+ c).
Proof. induction a as [|x a IH]; simpl; [reflexivity|]. now rewrite IH. Qed.

Lemma rev_app a b : rev (a +:+ b) = rev b +:+ rev a.
Proof.
  induction a as [|x a IH]; simpl.
  - symmetry. apply append_empty.
  - rewrite IH. apply append_assoc.
Qed.

Lemma blank_app a b : Spec.blank (a +:+ b) = Spec.blank a && Spec.blank b.
Proof.
  induction a as [|x a IH]; [reflexivity|].
  cbn. rewrite IH, andb_assoc. reflexivity.
Qed.

Lemma blank_rev s : Spec.blank (rev s) = Spec.blank s.
Proof.
  induction s as [|x s IH]; [reflexivity|].
  cbn [rev]. rewrite blank_app, IH. cbn. rewrite andb_true_r, andb_comm.
  reflexivity.
Qed.

Lemma lstrip_blank s : Spec.blank s = true -> lstrip s = EmptyString.
Proof.
  induction s as [|x s IH]; [reflexivity|].
  cbn. intros H. apply andb_true_iff in H as [-> Hs]. auto.
Qed.

Lemma lstrip_not_blank s :
  Spec.blank s = false ->
  exists c t, lstrip s = String c t /\ isspace_char c = false
              /\ Spec.blank (String c t) = false.
Proof.
  induction s as [|x s IH]; [discriminate|].
  cbn. destruct (isspace_char x) eqn:Hx; cbn.
  - exact IH.
  - intros _. exists x, s. cbn. rewrite Hx. auto.
Qed.

(** [question.strip()] is empty exactly for a blank question. *)
Lemma strip_empty_iff s : truthy (strip s) = false <-> Spec.blank s = true.
Proof.
  unfold strip, rstrip. split.
  - intros H. destruct (Spec.blank s) eqn:Hb; [reflexivity|exfalso].
    destruct (lstrip_not_blank _ Hb) as (c & t & Hs & Hc & Hct).
    rewrite Hs in H. rewrite <- blank_rev in Hct.
    destruct (lstrip_not_blank _ Hct) as (c' & t' & Hl & _ & _).
    rewrite Hl in H. cbn [rev] in H.
    destruct (rev t'); discriminate.
  - intros Hb. rewrite (lstrip_blank _ Hb). reflexivity.
Qed.

End Strings.

(** ** The loader selector *)

Section LoaderSelector.

(** The two files carry the same selector. *)
Lemma get_loader_for_file_same path :
  Mock.get_loader_for_file path = Main.get_loader_for_file path.
Proof. reflexivity. Qed.

(** The selector looks the lowercased extension up in the table of
    extractors and raises [ValueError], naming it, when it is not there. *)
Lemma get_loader_for_file_spec path :
  Main.get_loader_for_file path =
  match Spec.extractor_for (Spec.extension path) with
  | Some mk => inr (mk path)
  | None =>
      inl (Exn ValueError
             ("Unsupported file format: " +:+ lower (Spec.extension path)))
  end.
Proof.
  unfold Main.get_loader_for_file, Spec.extractor_for.
  rewrite last_item_split.
  generalize (lower (Spec.extension path)) as e. intros e.
  unfold Spec.extractors, in_list. cbn [Spec.assoc existsb].
  destruct (String.eqb e "pdf"); [reflexivity|].
  destruct (String.eqb e "docx"); [reflexivity|].
  destruct (String.eqb e "doc"); [reflexivity|].
  destruct (String.eqb e "txt"); [reflexivity|].
  destruct (String.eqb e "csv"); reflexivity.
Qed.

(** Every extension of the supported set, in any letter case, selects an
    extractor. *)
Lemma supported_selects path :
  In (lower (Spec.extension path)) Spec.supported ->
  exists loader, Main.get_loader_for_file path = inr loader
                 /\ Demo.loader_path loader = path.
Proof.
  rewrite get_loader_for_file_spec. unfold Spec.extractor_for.
  intros [<-|[<-|[<-|[<-|[<-|[]]]]]]; cbn; eauto.
Qed.

(** Any other extension is refused, and the message names it. *)
Lemma unsupported_raises path :
  ~ In (lower (Spec.extension path)) Spec.supported ->
  Main.get_loader_for_file path =
  inl (Exn ValueError
         ("Unsupported file format: " +:+ lower (Spec.extension path))).
Proof.
  rewrite get_loader_for_file_spec. unfold Spec.extractor_for.
  generalize (lower (Spec.extension path)) as e. intros e Hn.
  unfold Spec.extractors. cbn [Spec.assoc].
  repeat match goal with
  | |- context [String.eqb e ?k] =>
      destruct (String.eqb_spec e k) as [->|_];
      [exfalso; apply Hn; simpl; tauto|]
  end.
  reflexivity.
Qed.

(** C10. For a file name without any dot, the selector takes the whole
    lowercased name as the extension: the names [pdf], [docx], [doc], [txt]
    and [csv] (in any letter case) select their extractor, and every other
    dotless name is refused with an unsupported-format error that names the
    whole lowercased name.  The selector is the same in both files. *)
Theorem dotless_name_is_the_extension (name : string) :
  contains "." name = false ->
  let selected :=
    match Spec.extractor_for name with
    | Some mk => inr (mk name)
    | None => inl (Exn ValueError ("Unsupported file format: " +:+ lower name))
    end in
  Main.get_loader_for_file name = selected
  /\ Mock.get_loader_for_file name = selected.
Proof.
  intros Hd selected.
  assert (Main.get_loader_for_file name = selected) as H.
  { rewrite get_loader_for_file_spec. subst selected.
    rewrite (extension_without _ Hd). reflexivity. }
  split; [exact H|]. rewrite <- H. apply get_loader_for_file_same.
Qed.

Lemma dotless_name_is_the_extension_witness :
  (Main.get_loader_for_file "PDF" = inr (PyPDFLoader "PDF")
   /\ Mock.get_loader_for_file "PDF" = inr (PyPDFLoader "PDF"))
  /\ (Main.get_loader_for_file "README" =
        inl (Exn ValueError "Unsupported file format: readme")
      /\ Mock.get_loader_for_file "README" =
           inl (Exn ValueError "Unsupported file format: readme")).
Proof.
  split.
  - exact (dotless_name_is_the_extension "PDF" eq_refl).
  - exact (dotless_name_is_the_extension "README" eq_refl).
Defined.

(** Through [upload_file] the selector sees the staged path, so a dotless
    upload named [pdf] is looked up as [uploads/pdf] and refused. *)
Example staged_dotless_pdf :
  Main.get_loader_for_file (os_path_join Main.UPLOAD_DIR "pdf") =
  inl (Exn ValueError "Unsupported file format: uploads/pdf").
Proof. reflexivity. Qed.

End LoaderSelector.

(** ** Processing an upload *)

Section Processing.
Context `{SV : Services}.

Ltac step_through :=
  repeat match goal with
  | |- context [match ?r with inl _ => _ | inr _ => _ end] =>
      destruct r; cbn; try reflexivity
  end.

Lemma main_process_spec file_path w :
  Main.process file_path w =
  Spec.processed Main.get_loader_for_file Main.embeddings
                 Spec.main_chat_args file_path w.
Proof.
  unfold Main.process, Spec.processed, Spec.build_index,
    Spec.build_pipeline, Spec.main_chat_args, bind, call, ret.
  destruct w as [vs qa fs]; cbn [files].
  step_through.
Qed.

Lemma mock_process_spec file_path w :
  Mock.process file_path w =
  Spec.processed Mock.get_loader_for_file Mock.embeddings
                 Spec.mock_chat_args file_path w.
Proof.
  unfold Mock.process, Spec.processed, Spec.build_index,
    Spec.build_pipeline, Spec.mock_chat_args, bind, call, ret.
  destruct w as [vs qa fs]; cbn [files].
  step_through.
Qed.

(** Processing never touches the disk. *)
Lemma processed_files get_loader emb args file_path w :
  files (snd (Spec.processed get_loader emb args file_path w)) = files w.
Proof.
  unfold Spec.processed.
  destruct (Spec.build_index _ _ _ _); [reflexivity|].
  destruct (Spec.build_pipeline _ _); reflexivity.
Qed.

(** Every exception class derives from [Exception], so the last [except]
    clause of both handlers catches whatever reaches it. *)
Lemma isinstance_Exception e : isinstance e Exception = true.
Proof. destruct e as [[] msg]; reflexivity. Qed.

(** An upload whose file reached the disk: the file is staged, processed,
    the outcome mapped to a response, and the staged file removed. *)
Lemma main_upload_saved f w :
  write_fault_of (Spec.staged f) (Main.file f) = None ->
  Main.upload_file f w =
  let w1 := set_files (<[Spec.staged f := Main.file f]> (files w)) w in
  let '(r, w2) := Spec.processed Main.get_loader_for_file Main.embeddings
                    Spec.main_chat_args (Spec.staged f) w1 in
  (Spec.main_reply r, set_files (delete (Spec.staged f) (files w)) w2).
Proof.
  intros Hw. unfold Main.upload_file, finally, try_except, bind, save_upload.
  fold (Spec.staged f). rewrite Hw, main_process_spec. cbn zeta.
  pose proof (processed_files Main.get_loader_for_file Main.embeddings
                Spec.main_chat_args (Spec.staged f)
                (set_files (<[Spec.staged f := Main.file f]> (files w)) w))
    as Hfiles.
  destruct (Spec.processed _ _ _ _ _) as [r w2]. cbn [snd] in Hfiles.
  cbn [files set_files] in Hfiles.
  unfold os_path_exists, remove, os_remove, Spec.main_reply.
  destruct r as [e|body];
    [rewrite isinstance_Exception; destruct (isinstance e ValueError)|];
    cbn iota beta; rewrite Hfiles, lookup_insert_eq;
    rewrite bool_decide_eq_true_2 by eauto;
    rewrite delete_insert_eq; reflexivity.
Qed.

Lemma mock_upload_saved f u w :
  write_fault_of (Spec.staged f) (Main.file f) = None ->
  Mock.upload_file f u w =
  let w1 := set_files (<[Spec.staged f := Main.file f]> (files w)) w in
  let '(r, w2) := Spec.processed Mock.get_loader_for_file Mock.embeddings
                    Spec.mock_chat_args (Spec.staged f) w1 in
  (Spec.mock_reply r, set_files (delete (Spec.staged f) (files w)) w2).
Proof.
  intros Hw. unfold Mock.upload_file, finally, try_except, save_upload.
  change (os_path_join Mock.UPLOAD_DIR (Main.filename f)) with (Spec.staged f).
  rewrite Hw, mock_process_spec. cbn zeta.
  pose proof (processed_files Mock.get_loader_for_file Mock.embeddings
                Spec.mock_chat_args (Spec.staged f)
                (set_files (<[Spec.staged f := Main.file f]> (files w)) w))
    as Hfiles.
  destruct (Spec.processed _ _ _ _ _) as [r w2]. cbn [snd] in Hfiles.
  cbn [files set_files] in Hfiles.
  unfold remove, os_remove, Spec.mock_reply.
  destruct r as [e|body]; [rewrite isinstance_Exception|];
    cbn iota beta; rewrite Hfiles, lookup_insert_eq, delete_insert_eq;
    reflexivity.
Qed.

(** In [main.py] the write is inside the [try], so the [finally] is entered
    also when the write went wrong: on a disk of regular files nothing is
    left at the staged path. *)
Lemma main_upload_leaves_nothing f w :
  files (snd (Main.upload_file f w)) !! Spec.staged f = None.
Proof.
  destruct (write_fault_of (Spec.staged f) (Main.file f)) as [fault|] eqn:Hw.
  - unfold Main.upload_file, finally, try_except, bind, save_upload.
    fold (Spec.staged f). rewrite Hw.
    destruct fault as [e|n e]; cbn iota beta;
      unfold os_path_exists, remove, os_remove, ret; cbn [files set_files].
    + destruct (files w !! Spec.staged f) as [b|] eqn:Hl.
      * rewrite bool_decide_eq_true_2 by eauto.
        cbn. apply lookup_delete_eq.
      * rewrite bool_decide_eq_false_2 by (intros [? ?]; discriminate).
        exact Hl.
    + rewrite lookup_insert_eq, bool_decide_eq_true_2 by eauto.
      cbn. apply lookup_delete_eq.
  - rewrite (main_upload_saved f w Hw). cbn zeta.
    destruct (Spec.processed _ _ _ _ _) as [r w2]. cbn.
    apply lookup_delete_eq.
Qed.

(** A failed upload never assigns [qa_chain], whatever the disk did. *)
Lemma main_failed_upload_keeps_chain f w :
  Spec.succeeded (fst (Main.upload_file f w)) = false ->
  qa_chain (snd (Main.upload_file f w)) = qa_chain w.
Proof.
  destruct (write_fault_of (Spec.staged f) (Main.file f)) as [fault|] eqn:Hw.
  - intros _.
    unfold Main.upload_file, finally, try_except, bind, save_upload.
    fold (Spec.staged f). rewrite Hw.
    destruct fault as [e|n e]; cbn iota beta;
      unfold os_path_exists, remove, os_remove, ret; cbn [files set_files].
    + destruct (files w !! Spec.staged f) as [b|] eqn:Hl.
      * rewrite bool_decide_eq_true_2 by eauto. reflexivity.
      * rewrite bool_decide_eq_false_2 by (intros [? ?]; discriminate).
        reflexivity.
    + rewrite lookup_insert_eq, bool_decide_eq_true_2 by eauto. reflexivity.
  - rewrite (main_upload_saved f w Hw). cbn zeta. unfold Spec.processed.
    destruct (Spec.build_index _ _ _ _) as [e|index]; [reflexivity|].
    destruct (Spec.build_pipeline _ _) as [e|chain]; [reflexivity|].
    discriminate.
Qed.

Lemma mock_failed_upload_keeps_chain f u w :
  Spec.succeeded (fst (Mock.upload_file f u w)) = false ->
  qa_chain (snd (Mock.upload_file f u w)) = qa_chain w.
Proof.
  destruct (write_fault_of (Spec.staged f) (Main.file f)) as [fault|] eqn:Hw.
  - intros _. unfold Mock.upload_file, save_upload.
    change (os_path_join Mock.UPLOAD_DIR (Main.filename f))
      with (Spec.staged f).
    rewrite Hw. destruct fault; reflexivity.
  - rewrite (mock_upload_saved f u w Hw). cbn zeta. unfold Spec.processed.
    destruct (Spec.build_index _ _ _ _) as [e|index]; [reflexivity|].
    destruct (Spec.build_pipeline _ _) as [e|chain]; [reflexivity|].
    discriminate.
Qed.

End Processing.

(** ** Session state across uploads and questions *)

Section SessionState.
Context `{SV : Services}.

(** C2, as amended.  For every upload whose file was saved and whose
    processing then fails: the QA pipeline is the prior one; when the failure
    is at loader selection, extraction, chunking or index build, the vector
    index is the prior one as well, so the session state is untouched; when
    the index was built and only the pipeline construction failed, the vector
    index is already the new one.  This holds for [main.py] and for
    [Mock.py]. *)
Theorem failed_upload_session_state f u w :
  write_fault_of (Spec.staged f) (Main.file f) = None ->
  let staged_disk := <[Spec.staged f := Main.file f]> (files w) in
  (Spec.succeeded (fst (Main.upload_file f w)) = false ->
   qa_chain (snd (Main.upload_file f w)) = qa_chain w
   /\ match Spec.build_index Main.get_loader_for_file Main.embeddings
              (Spec.staged f) staged_disk with
      | inl _ => vector_store (snd (Main.upload_file f w)) = vector_store w
      | inr index =>
          vector_store (snd (Main.upload_file f w)) = Some index
          /\ exists e, Spec.build_pipeline Spec.main_chat_args index = inl e
      end)
  /\ (Spec.succeeded (fst (Mock.upload_file f u w)) = false ->
      qa_chain (snd (Mock.upload_file f u w)) = qa_chain w
      /\ match Spec.build_index Mock.get_loader_for_file Mock.embeddings
                 (Spec.staged f) staged_disk with
         | inl _ =>
             vector_store (snd (Mock.upload_file f u w)) = vector_store w
         | inr index =>
             vector_store (snd (Mock.upload_file f u w)) = Some index
             /\ exists e, Spec.build_pipeline Spec.mock_chat_args index = inl e
         end).
Proof.
  intros Hw staged_disk. subst staged_disk.
  rewrite (main_upload_saved f w Hw), (mock_upload_saved f u w Hw).
  cbn zeta. unfold Spec.processed. cbn [files set_files].
  split.
  - destruct (Spec.build_index _ _ _ _) as [e|index]; [auto|].
    destruct (Spec.build_pipeline _ _) as [e|chain]; cbn.
    + eauto.
    + discriminate.
  - destruct (Spec.build_index _ _ _ _) as [e|index]; [auto|].
    destruct (Spec.build_pipeline _ _) as [e|chain]; cbn.
    + eauto.
    + discriminate.
Qed.

(** While either global is unset, asking is refused as not ready. *)
Lemma main_ask_not_ready q w :
  vector_store w = None \/ qa_chain w = None ->
  Main.ask_question q w =
  (HTTPException 400 "No document has been uploaded yet", w).
Proof.
  unfold Main.ask_question. intros [-> | ->]; cbn; [reflexivity|].
  rewrite orb_true_r. reflexivity.
Qed.

Lemma mock_ask_not_ready req u w :
  vector_store w = None \/ qa_chain w = None ->
  Mock.ask_question req u w =
  (HTTPException 400 "No document has been uploaded yet", w).
Proof.
  unfold Mock.ask_question. intros [-> | ->]; cbn; [reflexivity|].
  rewrite orb_true_r. reflexivity.
Qed.

(** As long as no upload has succeeded, [qa_chain] keeps its value. *)
Lemma main_failed_uploads_keep_chain fs : forall w,
  Forall (fun r => Spec.succeeded r = false) (fst (Main.serve_uploads fs w)) ->
  qa_chain (snd (Main.serve_uploads fs w)) = qa_chain w.
Proof.
  induction fs as [|f fs IH]; intros w; [reflexivity|].
  cbn [Main.serve_uploads].
  pose proof (main_failed_upload_keeps_chain f w) as Hf.
  destruct (Main.upload_file f w) as [r w1]. cbn [fst snd] in Hf.
  specialize (IH w1). destruct (Main.serve_uploads fs w1) as [rs w2].
  cbn [fst snd] in *. intros Hall.
  apply Forall_cons in Hall as [Hr Hrs].
  rewrite (IH Hrs). exact (Hf Hr).
Qed.

Lemma mock_failed_uploads_keep_chain fs u : forall w,
  Forall (fun r => Spec.succeeded r = false)
         (fst (Mock.serve_uploads fs u w)) ->
  qa_chain (snd (Mock.serve_uploads fs u w)) = qa_chain w.
Proof.
  induction fs as [|f fs IH]; intros w; [reflexivity|].
  cbn [Mock.serve_uploads].
  pose proof (mock_failed_upload_keeps_chain f u w) as Hf.
  destruct (Mock.upload_file f u w) as [r w1]. cbn [fst snd] in Hf.
  specialize (IH w1). destruct (Mock.serve_uploads fs u w1) as [rs w2].
  cbn [fst snd] in *. intros Hall.
  apply Forall_cons in Hall as [Hr Hrs].
  rewrite (IH Hrs). exact (Hf Hr).
Qed.

(** C6. Starting from the initial session state (both globals unset) and
    after any sequence of uploads none of which succeeded, every question,
    whatever its content, is answered with the 400 not-ready error, in
    [main.py] and in the handler of [Mock.py]. *)
Theorem ask_before_any_successful_upload
    (uploads uploads' : list Main.UploadFile) (u : Mock.UserEntry)
    (disk : filesystem) (q : string) (req : Mock.QuestionRequest) :
  let w0 := World None None disk in
  Forall (fun r => Spec.succeeded r = false)
         (fst (Main.serve_uploads uploads w0)) ->
  Forall (fun r => Spec.succeeded r = false)
         (fst (Mock.serve_uploads uploads' u w0)) ->
  fst (Main.ask_question q (snd (Main.serve_uploads uploads w0)))
    = HTTPException 400 "No document has been uploaded yet"
  /\ fst (Mock.ask_question req u (snd (Mock.serve_uploads uploads' u w0)))
     = HTTPException 400 "No document has been uploaded yet".
Proof.
  intros w0 Hmain Hmock.
  apply main_failed_uploads_keep_chain in Hmain.
  apply mock_failed_uploads_keep_chain in Hmock.
  rewrite main_ask_not_ready, mock_ask_not_ready by (right; assumption).
  split; reflexivity.
Qed.

(** C1, as amended.  In [main.py], for every question that is empty or
    whitespace-only: once both the vector index and the QA pipeline are set,
    asking fails with the 422 validation error; while either is unset the
    not-ready check comes first and asking fails with the 400 error.  The
    session state is unchanged either way. *)
Theorem blank_question_rejected q w :
  Spec.blank q = true ->
  Main.ask_question q w =
  (if truthy_obj (vector_store w) && truthy_obj (qa_chain w)
   then HTTPException 422 "Question cannot be empty"
   else HTTPException 400 "No document has been uploaded yet", w).
Proof.
  intros Hb. apply strip_empty_iff in Hb.
  unfold Main.ask_question. rewrite Hb.
  destruct (vector_store w), (qa_chain w); reflexivity.
Qed.

(** Conversely a question with visible text gets past the validation. *)
Lemma main_ask_422_only_if_blank q w :
  Spec.status_of (fst (Main.ask_question q w)) = Some 422 ->
  Spec.blank q = true.
Proof.
  unfold Main.ask_question, try_except, bind, Main.call_qa_chain, ret.
  destruct (negb _ || negb _); [discriminate|].
  destruct (truthy (strip q)) eqn:Hs; [|intros _; now apply strip_empty_iff].
  cbn [negb]. destruct (qa_chain w); cbn.
  - destruct (call_chain _ _ _); cbn; [|discriminate].
    rewrite isinstance_Exception. discriminate.
  - discriminate.
Qed.

(** [Mock.py] has no check on the question: its handler never answers 422. *)
Lemma mock_ask_never_422 req u w :
  Spec.status_of (fst (Mock.ask_question req u w)) <> Some 422.
Proof.
  unfold Mock.ask_question, try_except, bind, Main.call_qa_chain, ret.
  destruct (negb _ || negb _); [discriminate|].
  destruct (qa_chain w); cbn.
  - destruct (call_chain _ _ _); cbn; [|discriminate].
    rewrite isinstance_Exception. discriminate.
  - discriminate.
Qed.

(** Uploads keep the session state consistent, whatever their outcome. *)
Lemma main_upload_consistent f w :
  Spec.consistent w -> Spec.consistent (snd (Main.upload_file f w)).
Proof.
  unfold Spec.consistent.
  destruct (write_fault_of (Spec.staged f) (Main.file f)) as [fault|] eqn:Hw.
  - unfold Main.upload_file, finally, try_except, bind, save_upload.
    fold (Spec.staged f). rewrite Hw.
    destruct fault as [e|n e]; cbn iota beta;
      unfold os_path_exists, remove, os_remove, ret; cbn [files set_files].
    + destruct (files w !! Spec.staged f) as [b|] eqn:Hl.
      * rewrite bool_decide_eq_true_2 by eauto. auto.
      * rewrite bool_decide_eq_false_2 by (intros [? ?]; discriminate). auto.
    + rewrite lookup_insert_eq, bool_decide_eq_true_2 by eauto. auto.
  - rewrite (main_upload_saved f w Hw). cbn zeta. unfold Spec.processed.
    destruct (Spec.build_index _ _ _ _) as [e|index]; [auto|].
    destruct (Spec.build_pipeline _ _) as [e|chain]; auto.
Qed.

Lemma mock_upload_consistent f u w :
  Spec.consistent w -> Spec.consistent (snd (Mock.upload_file f u w)).
Proof.
  unfold Spec.consistent.
  destruct (write_fault_of (Spec.staged f) (Main.file f)) as [fault|] eqn:Hw.
  - unfold Mock.upload_file, save_upload.
    change (os_path_join Mock.UPLOAD_DIR (Main.filename f))
      with (Spec.staged f).
    rewrite Hw. destruct fault; auto.
  - rewrite (mock_upload_saved f u w Hw). cbn zeta. unfold Spec.processed.
    destruct (Spec.build_index _ _ _ _) as [e|index]; [auto|].
    destruct (Spec.build_pipeline _ _) as [e|chain]; auto.
Qed.

(** What [ask_question] answers depends on the pipeline and on whether an
    index is set, not on which index it is. *)
Lemma main_ask_reads_chain q w w' :
  qa_chain w' = qa_chain w ->
  truthy_obj (vector_store w') = truthy_obj (vector_store w) ->
  fst (Main.ask_question q w') = fst (Main.ask_question q w).
Proof.
  unfold Main.ask_question, try_except, bind, Main.call_qa_chain, ret.
  intros -> ->.
  destruct (negb _ || negb _); [reflexivity|].
  destruct (negb (truthy (strip q))); [reflexivity|].
  destruct (qa_chain w); [|reflexivity].
  destruct (call_chain _ _ _); reflexivity.
Qed.

(** So, on a consistent session state, a question asked after a failed
    upload is answered as it would have been before it: through the prior
    pipeline, or with the not-ready error when there was none. *)
Lemma main_ask_after_failed_upload f q w :
  Spec.consistent w ->
  Spec.succeeded (fst (Main.upload_file f w)) = false ->
  fst (Main.ask_question q (snd (Main.upload_file f w)))
  = fst (Main.ask_question q w).
Proof.
  intros Hc Hf.
  pose proof (main_failed_upload_keeps_chain f w Hf) as Hqa.
  pose proof (main_upload_consistent f w Hc) as Hc'.
  unfold Spec.consistent in *. rewrite Hqa in Hc'.
  destruct (qa_chain w) as [chain|] eqn:Hchain.
  - apply main_ask_reads_chain; [congruence|].
    rewrite Hc, Hc' by reflexivity. reflexivity.
  - rewrite !main_ask_not_ready by (right; congruence). reflexivity.
Qed.

End SessionState.

(** ** Unsupported formats through [upload_file] *)

Section UnsupportedFormat.
Context `{SV : Services}.

(** The selector applied to the staged path of an unsupported upload. *)
Lemma staged_unsupported f :
  contains "." (Main.filename f) = true ->
  ~ In (lower (Spec.extension (Main.filename f))) Spec.supported ->
  Main.get_loader_for_file (Spec.staged f) =
  inl (Exn ValueError
         ("Unsupported file format: "
          +:+ lower (Spec.extension (Main.filename f)))).
Proof.
  intros Hd Hn. rewrite <- (extension_staged _ Hd) in *.
  apply unsupported_raises, Hn.
Qed.

(** [main.py]: an upload whose extension is not supported is answered 400,
    and the message names the extension. *)
Lemma main_unsupported_format_is_400 f w :
  write_fault_of (Spec.staged f) (Main.file f) = None ->
  contains "." (Main.filename f) = true ->
  ~ In (lower (Spec.extension (Main.filename f))) Spec.supported ->
  fst (Main.upload_file f w) =
  HTTPException 400 ("Unsupported file format: "
                     +:+ lower (Spec.extension (Main.filename f))).
Proof.
  intros Hw Hd Hn. rewrite (main_upload_saved f w Hw). cbn zeta.
  unfold Spec.processed, Spec.build_index.
  rewrite (staged_unsupported f Hd Hn). reflexivity.
Qed.

(** [Mock.py]: the same upload is answered 500, because the only [except]
    clause there is [except Exception]. *)
Lemma mock_unsupported_format_is_500 f u w :
  write_fault_of (Spec.staged f) (Main.file f) = None ->
  contains "." (Main.filename f) = true ->
  ~ In (lower (Spec.extension (Main.filename f))) Spec.supported ->
  fst (Mock.upload_file f u w) =
  HTTPException 500 ("Unsupported file format: "
                     +:+ lower (Spec.extension (Main.filename f))).
Proof.
  intros Hw Hd Hn. rewrite (mock_upload_saved f u w Hw). cbn zeta.
  unfold Spec.processed, Spec.build_index.
  change (Mock.get_loader_for_file (Spec.staged f))
    with (Main.get_loader_for_file (Spec.staged f)).
  rewrite (staged_unsupported f Hd Hn). reflexivity.
Qed.

(** C3. Uploading [report.xyz] to [Mock.py]: the selector raises the
    unsupported-format [ValueError] naming [xyz], and the handler answers
    with status 500, not 400; [main.py] answers the same upload with 400. *)
Theorem mock_upload_xyz_is_500 (data : bytes) u w :
  let f := {| Main.filename := "report.xyz"; Main.file := data |} in
  write_fault_of (Spec.staged f) data = None ->
  fst (Mock.upload_file f u w)
    = HTTPException 500 "Unsupported file format: xyz"
  /\ fst (Main.upload_file f w)
     = HTTPException 400 "Unsupported file format: xyz".
Proof.
  intros f Hw.
  assert (~ In (lower (Spec.extension (Main.filename f))) Spec.supported) as Hn.
  { cbn. intros [H|[H|[H|[H|[H|[]]]]]]; discriminate. }
  split.
  - exact (mock_unsupported_format_is_500 f u w Hw eq_refl Hn).
  - exact (main_unsupported_format_is_400 f w Hw eq_refl Hn).
Qed.

End UnsupportedFormat.

(** ** The auth gate of [Mock.py] *)

Section AuthGate.
Context `{SV : Services}.

(** [login] returns a token exactly for the names in the user table; the
    password of the form is never looked at. *)
Lemma login_by_name_only form utcnow :
  Spec.succeeded (Mock.login form utcnow) = true
  <-> Mock.form_username form = "admin".
Proof.
  unfold Mock.login, Mock.users_db. split.
  - destruct (decide (Mock.form_username form = "admin")) as [|Hne]; [auto|].
    rewrite lookup_singleton_ne by congruence. discriminate.
  - intros ->. reflexivity.
Qed.

Lemma login_unknown_user_is_400 form utcnow :
  Mock.form_username form <> "admin" ->
  Mock.login form utcnow = HTTPException 400 "Incorrect username or password".
Proof.
  intros Hne. unfold Mock.login, Mock.users_db.
  rewrite lookup_singleton_ne by congruence. reflexivity.
Qed.

(** C4. Logging in as [admin] with a password that matches nothing in the
    user table returns a bearer token instead of the 400 error. *)
Theorem login_wrong_password_gets_token utcnow :
  Mock.login {| Mock.form_username := "admin";
                Mock.form_password := "not-the-password" |} utcnow
  = Return {| Mock.access_token :=
                jwt_encode (<["exp" := CTime (utcnow + 1800)]>
                              {[ "sub" := CStr "admin" ]})
                           "your-secret-key" "HS256";
              Mock.token_type := "bearer" |}.
Proof. reflexivity. Qed.

(** The expression [jwt.JWTError] cannot be evaluated, so nothing that
    reaches the [except] clause is answered: it all escapes as the
    [AttributeError]. *)
Lemma get_current_user_cases token :
  Mock.get_current_user token =
  match Mock.current_user_of token with
  | inr user => Return user
  | inl _ =>
      Unhandled (Exn AttributeError "module 'jwt' has no attribute 'JWTError'")
  end.
Proof.
  unfold Mock.get_current_user. destruct (Mock.current_user_of token); reflexivity.
Qed.

(** [get_current_user] never answers 401, for any token. *)
Lemma get_current_user_never_401 token :
  Spec.status_of (Mock.get_current_user token) <> Some 401.
Proof.
  rewrite get_current_user_cases.
  destruct (Mock.current_user_of token); discriminate.
Qed.

(** C7. For every bearer token that fails validation (the token library
    raises for it, as for a bad signature or an expired token; or its
    payload has no subject; or its subject is not in the user table),
    [get_current_user] does not answer 401: the [AttributeError] raised by
    evaluating [jwt.JWTError] escapes it and both protected operations,
    which leave the session state and the disk as they were. *)
Theorem rejected_token_escapes_as_attribute_error token f req w :
  Spec.rejected token ->
  let err :=
    Exn AttributeError "module 'jwt' has no attribute 'JWTError'" in
  Mock.get_current_user token = Unhandled err
  /\ Spec.status_of (Mock.get_current_user token) <> Some 401
  /\ Mock.post_upload token f w = (Unhandled err, w)
  /\ Mock.post_ask token req w = (Unhandled err, w).
Proof.
  intros Hrej err.
  assert (Mock.get_current_user token = Unhandled err) as Hu.
  { rewrite get_current_user_cases. unfold Mock.current_user_of.
    destruct Hrej as [e He|payload Hp Hs|payload name Hp Hs Hn
                      |payload t Hp Hs].
    - rewrite He. reflexivity.
    - rewrite Hp, Hs. reflexivity.
    - rewrite Hp, Hs, Hn. reflexivity.
    - rewrite Hp, Hs. reflexivity. }
  unfold Mock.post_upload, Mock.post_ask, Mock.depends_current_user.
  rewrite Hu. cbn. split; [reflexivity|]. split; [discriminate|]. auto.
Qed.

(** A token that validates reaches the handler. *)
Lemma accepted_token_reaches_handler token payload f w :
  jwt_decode token Mock.SECRET_KEY [Mock.ALGORITHM] = inr payload ->
  payload !! "sub" = Some (CStr "admin") ->
  Mock.post_upload token f w = Mock.upload_file f Demo.admin w.
Proof.
  intros Hp Hs.
  unfold Mock.post_upload, Mock.depends_current_user, Mock.get_current_user,
    Mock.current_user_of.
  rewrite Hp, Hs. reflexivity.
Qed.

End AuthGate.

(** ** Start-up *)

Section Startup.
Context `{SV : Services}.

(** Start-up does not depend on the process environment: the key is the
    empty literal of the source, and the import always stops. *)
Lemma startup_always_fails environ disk :
  Main.startup environ disk
    = inl (Exn RuntimeError "Please set a valid OpenAI API key")
  /\ Mock.startup environ disk
     = inl (Exn RuntimeError "OPENAI_API_KEY environment variable is not set").
Proof. split; reflexivity. Qed.

(** C8. With [OPENAI_API_KEY] set in the environment, start-up of either
    file still stops with the [RuntimeError] for a missing key: the key is
    not taken from the environment. *)
Theorem startup_ignores_environment disk :
  let environ : gmap string string := {[ "OPENAI_API_KEY" := "sk-test" ]} in
  Main.startup environ disk
    = inl (Exn RuntimeError "Please set a valid OpenAI API key")
  /\ Mock.startup environ disk
     = inl (Exn RuntimeError "OPENAI_API_KEY environment variable is not set").
Proof. intros environ. apply startup_always_fails. Qed.

End Startup.

(** ** The handlers on concrete requests *)

Section Scenarios.

(** C1, as stated, fails: a whitespace-only question asked before anything
    was indexed is answered with the 400 not-ready error, not with 422. *)
Lemma blank_question_before_upload_is_400 :
  fst (Main.ask_question "   " (Demo.fresh true))
    = HTTPException 400 "No document has been uploaded yet"
  /\ Spec.status_of (fst (Main.ask_question "   " (Demo.fresh true)))
     <> Some 422.
Proof. split; [reflexivity|discriminate]. Qed.

Lemma blank_question_rejected_witness :
  fst (Main.ask_question "   " (Demo.indexed true))
    = HTTPException 422 "Question cannot be empty"
  /\ fst (Main.ask_question "" (Demo.fresh true))
     = HTTPException 400 "No document has been uploaded yet".
Proof.
  split.
  - exact (f_equal fst (blank_question_rejected "   " (Demo.indexed true)
                          eq_refl)).
  - exact (f_equal fst (blank_question_rejected "" (Demo.fresh true)
                          eq_refl)).
Defined.

(** C2, as stated, fails: with [sky.txt] indexed, an upload of [grass.txt]
    whose index is built but whose chat model cannot be constructed is
    answered 500 and leaves the new index paired with the old pipeline. *)
Lemma failed_pipeline_leaves_new_index :
  let before := Demo.indexed false in
  let after := snd (Main.upload_file Demo.grass before) in
  fst (Main.upload_file Demo.grass before)
    = HTTPException 500
        "Internal Server Error: Could not import openai python package"
  /\ vector_store before = Some ["The sky is blue."]
  /\ qa_chain before = Some ["The sky is blue."]
  /\ vector_store after = Some ["Grass is green."]
  /\ qa_chain after = Some ["The sky is blue."]
  /\ vector_store after <> vector_store before.
Proof.
  vm_compute.
  split; [reflexivity|]. split; [reflexivity|]. split; [reflexivity|].
  split; [reflexivity|]. split; [reflexivity|]. discriminate.
Qed.

Lemma failed_upload_session_state_witness :
  (* index build not reached: the state is untouched *)
  (qa_chain (snd (Main.upload_file Demo.report_xyz (Demo.indexed true)))
     = Some ["The sky is blue."]
   /\ vector_store (snd (Main.upload_file Demo.report_xyz (Demo.indexed true)))
      = Some ["The sky is blue."])
  (* pipeline construction failed: the index is the new one *)
  /\ (qa_chain (snd (Mock.upload_file Demo.grass Demo.admin
                       (Demo.indexed false)))
        = Some ["The sky is blue."]
      /\ vector_store (snd (Mock.upload_file Demo.grass Demo.admin
                              (Demo.indexed false)))
         = Some ["Grass is green."]).
Proof.
  split.
  - destruct (failed_upload_session_state Demo.report_xyz Demo.admin
                (Demo.indexed true) eq_refl) as [Hmain _].
    exact (Hmain eq_refl).
  - destruct (failed_upload_session_state Demo.grass Demo.admin
                (Demo.indexed false) eq_refl) as [_ Hmock].
    destruct (Hmock eq_refl) as [Hqa [Hvs _]].
    exact (conj Hqa Hvs).
Defined.

Lemma mock_upload_xyz_is_500_witness :
  fst (Mock.upload_file Demo.report_xyz Demo.admin (Demo.fresh true))
    = HTTPException 500 "Unsupported file format: xyz"
  /\ fst (Main.upload_file Demo.report_xyz (Demo.fresh true))
     = HTTPException 400 "Unsupported file format: xyz".
Proof.
  exact (mock_upload_xyz_is_500 (Main.file Demo.report_xyz) Demo.admin
           (Demo.fresh true) eq_refl).
Defined.

Lemma ask_before_any_successful_upload_witness :
  let failed_main :=
    snd (Main.serve_uploads [Demo.report_xyz; Demo.grass]
           (World None None ∅ : @world (Demo.services false))) in
  let failed_mock :=
    snd (Mock.serve_uploads [Demo.grass] Demo.admin
           (World None None ∅ : @world (Demo.services false))) in
  fst (Main.ask_question "What color is the sky?" failed_main)
    = HTTPException 400 "No document has been uploaded yet"
  /\ fst (Mock.ask_question
            {| Mock.question := "What color is the sky?";
               Mock.chat_history := [] |} Demo.admin failed_mock)
     = HTTPException 400 "No document has been uploaded yet".
Proof.
  apply (@ask_before_any_successful_upload (Demo.services false)
           [Demo.report_xyz; Demo.grass] [Demo.grass]).
  - vm_compute. repeat constructor.
  - vm_compute. repeat constructor.
Defined.

Lemma rejected_token_escapes_as_attribute_error_witness :
  let err :=
    Exn AttributeError "module 'jwt' has no attribute 'JWTError'" in
  (* an expired token *)
  @Mock.get_current_user (Demo.services true) "token-expired" = Unhandled err
  (* a token for somebody who is not in the table *)
  /\ Mock.post_upload "token-for-nobody" Demo.sky (Demo.indexed true)
     = (Unhandled err, Demo.indexed true)
  (* a token without a subject *)
  /\ Mock.post_ask "token-without-subject"
       {| Mock.question := "What color is the sky?";
          Mock.chat_history := [] |} (Demo.indexed true)
     = (Unhandled err, Demo.indexed true).
Proof.
  assert (@Spec.rejected (Demo.services true) "token-expired") as Hexpired.
  { apply (@Spec.unverifiable (Demo.services true) _
             (Exn Exception "Signature has expired")); reflexivity. }
  assert (@Spec.rejected (Demo.services true) "token-for-nobody") as Hnobody.
  { apply (@Spec.unknown_subject (Demo.services true) _
             {[ "sub" := CStr "nobody" ]} "nobody"); reflexivity. }
  assert (@Spec.rejected (Demo.services true) "token-without-subject")
    as Hnosub.
  { apply (@Spec.missing_subject (Demo.services true) _ ∅); reflexivity. }
  split; [|split].
  - exact (proj1 (rejected_token_escapes_as_attribute_error "token-expired"
                    Demo.sky
                    {| Mock.question := ""; Mock.chat_history := [] |}
                    (Demo.indexed true) Hexpired)).
  - exact (proj1 (proj2 (proj2
            (rejected_token_escapes_as_attribute_error "token-for-nobody"
               Demo.sky {| Mock.question := ""; Mock.chat_history := [] |}
               (Demo.indexed true) Hnobody)))).
  - exact (proj2 (proj2 (proj2
            (rejected_token_escapes_as_attribute_error "token-without-subject"
               Demo.sky
               {| Mock.question := "What color is the sky?";
                  Mock.chat_history := [] |}
               (Demo.indexed true) Hnosub)))).
Defined.

(** End to end on the small instance: upload [sky.txt], then ask. *)
Example upload_then_ask :
  let w := snd (Main.upload_file Demo.sky (Demo.fresh true)) in
  fst (Main.ask_question "What color is the sky?" w)
  = Return {| Main.answer := "I don't know.";
              Main.context := ["The sky is blue."] |}.
Proof. reflexivity. Qed.

(** A second upload replaces the index: the chain retrieves from it only. *)
Example second_upload_replaces_index :
  let w1 := snd (Main.upload_file Demo.sky (Demo.fresh true)) in
  let w2 := snd (Main.upload_file Demo.grass w1) in
  vector_store w2 = Some ["Grass is green."]
  /\ qa_chain w2 = Some ["Grass is green."].
Proof. vm_compute. split; reflexivity. Qed.

End Scenarios.

(** * Further properties of the two files *)

(** ** The loader selector on dotted names *)

Section SelectorOnDottedNames.

Lemma extension_of_dotted stem ext :
  contains "." ext = false -> Spec.extension (stem +:+ "." +:+ ext) = ext.
Proof.
  intros Hd. rewrite extension_app; [|reflexivity].
  change ("." +:+ ext) with (String "." ext).
  cbn [Spec.extension contains]. rewrite Ascii.eqb_refl. cbn [orb].
  apply extension_without, Hd.
Qed.

(** X1. For a path of the form [stem.ext], where [ext] has no dot, the
    selector (the same in both files) decides by [ext] alone, compared
    case-insensitively: a supported extension gives its extractor, bound to
    the path as it was passed; anything else, the empty extension of a path
    ending in a dot included, raises [ValueError] whose message names the
    lowercased extension.  The stem, directories included, plays no part. *)
Theorem selector_decides_by_text_after_final_dot stem ext :
  contains "." ext = false ->
  let path := stem +:+ "." +:+ ext in
  let selected :=
    match Spec.extractor_for ext with
    | Some mk => inr (mk path)
    | None => inl (Exn ValueError ("Unsupported file format: " +:+ lower ext))
    end in
  Main.get_loader_for_file path = selected
  /\ Mock.get_loader_for_file path = selected.
Proof.
  intros Hd path selected.
  assert (Main.get_loader_for_file path = selected) as H.
  { rewrite get_loader_for_file_spec. subst path selected.
    rewrite (extension_of_dotted stem ext Hd). reflexivity. }
  split; [exact H|]. rewrite <- H. apply get_loader_for_file_same.
Qed.

Lemma selector_decides_by_text_after_final_dot_witness :
  (Main.get_loader_for_file "uploads/a.b/Report.v2.DocX"
     = inr (Docx2txtLoader "uploads/a.b/Report.v2.DocX")
   /\ Mock.get_loader_for_file "uploads/a.b/Report.v2.DocX"
      = inr (Docx2txtLoader "uploads/a.b/Report.v2.DocX"))
  /\ (Main.get_loader_for_file "uploads/report."
        = inl (Exn ValueError "Unsupported file format: ")
      /\ Mock.get_loader_for_file "uploads/report."
         = inl (Exn ValueError "Unsupported file format: ")).
Proof.
  split.
  - exact (selector_decides_by_text_after_final_dot
             "uploads/a.b/Report.v2" "DocX" eq_refl).
  - exact (selector_decides_by_text_after_final_dot
             "uploads/report" "" eq_refl).
Defined.

End SelectorOnDottedNames.

(** ** Uploads, outcome by outcome *)

Section UploadOutcomes.
Context `{SV : Services}.

Lemma set_files_set_files fs fs' (w : world) :
  set_files fs (set_files fs' w) = set_files fs w.
Proof. reflexivity. Qed.

(** The staged path of a dotless, relative name, seen by the selector. *)
Lemma staged_dotless_refused name :
  contains "." name = false ->
  startswith "/" name = false ->
  Main.get_loader_for_file (os_path_join Main.UPLOAD_DIR name) =
  inl (Exn ValueError ("Unsupported file format: uploads/" +:+ lower name)).
Proof.
  intros Hd Hs. unfold os_path_join. rewrite Hs.
  change (Main.get_loader_for_file ("uploads/" +:+ name) =
          inl (Exn ValueError
                 ("Unsupported file format: " +:+ lower ("uploads/" +:+ name)))).
  rewrite get_loader_for_file_spec.
  rewrite extension_without
    by (rewrite contains_app, Hd; reflexivity).
  reflexivity.
Qed.

(** X2. An upload whose name has no dot (and is not an absolute path) is
    always refused once its file has been saved, even when the name itself
    is a supported extension: the selector sees the staged path
    [uploads/<name>], whose "extension" is that whole path.  [main.py]
    answers 400 and [Mock.py] 500; the session state is as before and the
    staged file is gone. *)
Theorem dotless_upload_is_refused f u w :
  contains "." (Main.filename f) = false ->
  startswith "/" (Main.filename f) = false ->
  write_fault_of (Spec.staged f) (Main.file f) = None ->
  let detail :=
    "Unsupported file format: uploads/" +:+ lower (Main.filename f) in
  let w' := set_files (delete (Spec.staged f) (files w)) w in
  Main.upload_file f w = (HTTPException 400 detail, w')
  /\ Mock.upload_file f u w = (HTTPException 500 detail, w').
Proof.
  intros Hd Hs Hw detail w'.
  rewrite (main_upload_saved f w Hw), (mock_upload_saved f u w Hw).
  cbn zeta. unfold Spec.processed, Spec.build_index.
  change (Mock.get_loader_for_file (Spec.staged f))
    with (Main.get_loader_for_file (Spec.staged f)).
  pose proof (staged_dotless_refused _ Hd Hs) as Hsel.
  fold (Spec.staged f) in Hsel. rewrite !Hsel.
  split; reflexivity.
Qed.


End UploadOutcomes.

(** ** Uploads: failed writes, the disk, the installed pair *)

Section UploadEffects.
Context `{SV : Services}.

Lemma set_files_same (w : world) : set_files (files w) w = w.
Proof. destruct w; reflexivity. Qed.

(** [main.py] when the write fails: the exception is mapped like any other
    and the [finally] clears the staged path. *)
Lemma main_upload_write_failed f w fault :
  write_fault_of (Spec.staged f) (Main.file f) = Some fault ->
  Main.upload_file f w =
  (Spec.main_reply (inl (Spec.fault_exn fault)),
   set_files (delete (Spec.staged f) (files w)) w).
Proof.
  intros Hw. unfold Main.upload_file, finally, try_except, bind, save_upload.
  fold (Spec.staged f). rewrite Hw.
  destruct fault as [e|n e]; cbn iota beta;
    unfold os_path_exists, remove, os_remove, ret, Spec.main_reply;
    cbn [files set_files Spec.fault_exn]; rewrite isinstance_Exception.
  - destruct (files w !! Spec.staged f) as [b|] eqn:Hl.
    + rewrite bool_decide_eq_true_2 by eauto. reflexivity.
    + rewrite bool_decide_eq_false_2 by (intros [? ?]; discriminate).
      rewrite (delete_id _ _ Hl), set_files_same. reflexivity.
  - rewrite lookup_insert_eq, bool_decide_eq_true_2 by eauto.
    cbn. rewrite delete_insert_eq. reflexivity.
Qed.

(** [Mock.py] when the write fails: the exception leaves the handler before
    the [try] is entered. *)
Lemma mock_upload_write_failed f u w fault :
  write_fault_of (Spec.staged f) (Main.file f) = Some fault ->
  Mock.upload_file f u w =
  (Unhandled (Spec.fault_exn fault),
   set_files (Spec.after_fault fault (Spec.staged f) (Main.file f) (files w))
             w).
Proof.
  intros Hw. unfold Mock.upload_file, save_upload.
  change (os_path_join Mock.UPLOAD_DIR (Main.filename f)) with (Spec.staged f).
  rewrite Hw. destruct fault as [e|n e]; cbn; [|reflexivity].
  rewrite set_files_same. reflexivity.
Qed.

(** C5. An upload to [Mock.py] whose copy to the staging path raises
    part-way: the exception escapes the handler and the bytes already
    written stay at the staged path after the request, because the write
    precedes the [try] and the [finally] that removes the file is never
    entered. *)
Theorem failed_copy_leaves_the_staged_file f u w n e :
  write_fault_of (Spec.staged f) (Main.file f) = Some (CopyFails n e) ->
  fst (Mock.upload_file f u w) = Unhandled e
  /\ files (snd (Mock.upload_file f u w)) !! Spec.staged f
     = Some (take n (Main.file f)).
Proof.
  intros Hw. rewrite (mock_upload_write_failed f u w _ Hw).
  split; [reflexivity|]. cbn. apply lookup_insert_eq.
Qed.

(** X5. [Mock.py], when writing the upload fails: the exception escapes the
    handler (the write precedes the [try]), the session state is as before,
    and the cleanup does not run, so the bytes that reached the staged path
    before a failed copy stay on the disk. *)
Theorem mock_failed_write_escapes f u w fault :
  write_fault_of (Spec.staged f) (Main.file f) = Some fault ->
  fst (Mock.upload_file f u w) = Unhandled (Spec.fault_exn fault)
  /\ vector_store (snd (Mock.upload_file f u w)) = vector_store w
  /\ qa_chain (snd (Mock.upload_file f u w)) = qa_chain w
  /\ files (snd (Mock.upload_file f u w)) !! Spec.staged f
     = match fault with
       | OpenFails _ => files w !! Spec.staged f
       | CopyFails n _ => Some (take n (Main.file f))
       end.
Proof.
  intros Hw. rewrite (mock_upload_write_failed f u w fault Hw).
  cbn [fst snd]. split; [reflexivity|]. split; [reflexivity|].
  split; [reflexivity|].
  destruct fault as [e|n e]; cbn; [reflexivity|apply lookup_insert_eq].
Qed.


(** No upload succeeds without the index and the pipeline having been
    built; the state it leaves is that pair. *)
Lemma main_upload_success_inv f w :
  Spec.succeeded (fst (Main.upload_file f w)) = true ->
  exists index chain,
    Spec.build_index Main.get_loader_for_file Main.embeddings
      (Spec.staged f) (<[Spec.staged f := Main.file f]> (files w)) = inr index
    /\ Spec.build_pipeline Spec.main_chat_args index = inr chain
    /\ Main.upload_file f w
       = (Return {| Main.message := "File processed successfully" |},
          World (Some index) (Some chain) (delete (Spec.staged f) (files w))).
Proof.
  destruct (write_fault_of (Spec.staged f) (Main.file f)) as [fault|] eqn:Hw.
  - rewrite (main_upload_write_failed f w fault Hw).
    cbn [fst Spec.succeeded Spec.main_reply].
    destruct (isinstance _ ValueError); discriminate.
  - rewrite (main_upload_saved f w Hw).
    cbn zeta. unfold Spec.processed. cbn [files set_files].
    destruct (Spec.build_index _ _ _ _) as [e|index];
      [cbn; destruct (isinstance e ValueError); discriminate|].
    destruct (Spec.build_pipeline _ _) as [e|chain] eqn:Hp;
      [cbn; destruct (isinstance e ValueError); discriminate|].
    intros _. exists index, chain.
    split; [reflexivity|]. split; [exact Hp|reflexivity].
Qed.

Lemma mock_upload_success_inv f u w :
  Spec.succeeded (fst (Mock.upload_file f u w)) = true ->
  exists index chain,
    Spec.build_index Mock.get_loader_for_file Mock.embeddings
      (Spec.staged f) (<[Spec.staged f := Main.file f]> (files w)) = inr index
    /\ Spec.build_pipeline Spec.mock_chat_args index = inr chain
    /\ Mock.upload_file f u w
       = (Return {| Main.message := "File processed successfully" |},
          World (Some index) (Some chain) (delete (Spec.staged f) (files w))).
Proof.
  destruct (write_fault_of (Spec.staged f) (Main.file f)) as [fault|] eqn:Hw.
  - rewrite (mock_upload_write_failed f u w fault Hw). discriminate.
  - rewrite (mock_upload_saved f u w Hw).
    cbn zeta. unfold Spec.processed. cbn [files set_files].
    destruct (Spec.build_index _ _ _ _) as [e|index]; [discriminate|].
    destruct (Spec.build_pipeline _ _) as [e|chain] eqn:Hp; [discriminate|].
    intros _. exists index, chain.
    split; [reflexivity|]. split; [exact Hp|reflexivity].
Qed.

(** X9. A successful upload installs a complete, matching pair: the index
    built from the staged file and the pipeline built over the retriever of
    that same index; the answer is the success message and the staged file
    is gone.  No upload succeeds without both having been built. *)
Theorem successful_upload_installs_matching_pair f u w :
  let staged_disk := <[Spec.staged f := Main.file f]> (files w) in
  let done := {| Main.message := "File processed successfully" |} in
  (Spec.succeeded (fst (Main.upload_file f w)) = true ->
   exists index chain,
     Spec.build_index Main.get_loader_for_file Main.embeddings
       (Spec.staged f) staged_disk = inr index
     /\ Spec.build_pipeline Spec.main_chat_args index = inr chain
     /\ Main.upload_file f w
        = (Return done,
           World (Some index) (Some chain) (delete (Spec.staged f) (files w))))
  /\ (Spec.succeeded (fst (Mock.upload_file f u w)) = true ->
      exists index chain,
        Spec.build_index Mock.get_loader_for_file Mock.embeddings
          (Spec.staged f) staged_disk = inr index
        /\ Spec.build_pipeline Spec.mock_chat_args index = inr chain
        /\ Mock.upload_file f u w
           = (Return done,
              World (Some index) (Some chain)
                    (delete (Spec.staged f) (files w)))).
Proof.
  intros staged_disk done. split.
  - apply main_upload_success_inv.
  - apply mock_upload_success_inv.
Qed.

(** Two worlds with the same disk: the same answer, and the same pair when
    the upload succeeds. *)
Lemma main_upload_reads_disk_only f w w' :
  files w' = files w ->
  fst (Main.upload_file f w') = fst (Main.upload_file f w)
  /\ (Spec.succeeded (fst (Main.upload_file f w)) = true ->
      snd (Main.upload_file f w') = snd (Main.upload_file f w)).
Proof.
  intros Hf.
  destruct (write_fault_of (Spec.staged f) (Main.file f)) as [fault|] eqn:Hw.
  - rewrite (main_upload_write_failed f w' fault Hw),
      (main_upload_write_failed f w fault Hw). cbn [fst snd].
    split; [reflexivity|].
    unfold Spec.main_reply. destruct (isinstance _ ValueError); discriminate.
  - rewrite (main_upload_saved f w' Hw), (main_upload_saved f w Hw). cbn zeta. unfold Spec.processed.
    cbn [files set_files]. rewrite Hf.
    destruct (Spec.build_index _ _ _ _) as [e|index];
      [cbn; split; [reflexivity|];
       destruct (isinstance e ValueError); discriminate|].
    destruct (Spec.build_pipeline _ _) as [e|chain];
      [cbn; split; [reflexivity|];
       destruct (isinstance e ValueError); discriminate|].
    cbn. auto.
Qed.

Lemma mock_upload_reads_disk_only f u w w' :
  files w' = files w ->
  fst (Mock.upload_file f u w') = fst (Mock.upload_file f u w)
  /\ (Spec.succeeded (fst (Mock.upload_file f u w)) = true ->
      snd (Mock.upload_file f u w') = snd (Mock.upload_file f u w)).
Proof.
  intros Hf.
  destruct (write_fault_of (Spec.staged f) (Main.file f)) as [fault|] eqn:Hw.
  - rewrite (mock_upload_write_failed f u w' fault Hw),
      (mock_upload_write_failed f u w fault Hw). cbn [fst snd].
    split; [reflexivity|discriminate].
  - rewrite (mock_upload_saved f u w' Hw), (mock_upload_saved f u w Hw). cbn zeta. unfold Spec.processed.
    cbn [files set_files]. rewrite Hf.
    destruct (Spec.build_index _ _ _ _) as [e|index];
      [cbn; split; [reflexivity|discriminate]|].
    destruct (Spec.build_pipeline _ _) as [e|chain];
      [cbn; split; [reflexivity|discriminate]|].
    cbn. auto.
Qed.

(** X10. An upload never reads the session state: from two states over the
    same disk it gives the same answer, and when it succeeds it leaves the
    same state behind, so the previous index and pipeline are replaced
    wholesale, not merged.  This holds for both files. *)
Theorem upload_replaces_session_state_wholesale f u w w' :
  files w' = files w ->
  (fst (Main.upload_file f w') = fst (Main.upload_file f w)
   /\ (Spec.succeeded (fst (Main.upload_file f w)) = true ->
       snd (Main.upload_file f w') = snd (Main.upload_file f w)))
  /\ (fst (Mock.upload_file f u w') = fst (Mock.upload_file f u w)
      /\ (Spec.succeeded (fst (Mock.upload_file f u w)) = true ->
          snd (Mock.upload_file f u w') = snd (Mock.upload_file f u w))).
Proof.
  intros Hf. split.
  - apply main_upload_reads_disk_only, Hf.
  - apply mock_upload_reads_disk_only, Hf.
Qed.




End UploadEffects.

(** ** Questions *)

Section Questions.
Context `{SV : Services}.

Lemma truthy_strip q : truthy (strip q) = negb (Spec.blank q).
Proof.
  destruct (Spec.blank q) eqn:Hb.
  - apply strip_empty_iff, Hb.
  - destruct (truthy (strip q)) eqn:Ht; [reflexivity|].
    apply strip_empty_iff in Ht. congruence.
Qed.

(** [ask_question] of [main.py], case by case. *)
Lemma main_ask_cases q w :
  Main.ask_question q w =
  (match vector_store w, qa_chain w with
   | Some _, Some chain =>
       if Spec.blank q then HTTPException 422 "Question cannot be empty"
       else match call_chain chain q [] with
            | inr result =>
                Return {| Main.answer := fst result;
                          Main.context := map page_content (snd result) |}
            | inl e => HTTPException 500 ("Internal Server Error: " +:+ str e)
            end
   | _, _ => HTTPException 400 "No document has been uploaded yet"
   end, w).
Proof.
  unfold Main.ask_question, try_except, bind, Main.call_qa_chain, ret.
  rewrite truthy_strip, negb_involutive.
  destruct (vector_store w), (qa_chain w); cbn; try reflexivity.
  destruct (Spec.blank q); [reflexivity|].
  destruct (call_chain _ _ _); cbn; [|reflexivity].
  rewrite isinstance_Exception. reflexivity.
Qed.

(** [ask_question] of [Mock.py], case by case. *)
Lemma mock_ask_cases req u w :
  Mock.ask_question req u w =
  (match vector_store w, qa_chain w with
   | Some _, Some chain =>
       match call_chain chain (Mock.question req) (Mock.chat_history req) with
       | inr result =>
           Return {| Main.answer := fst result;
                     Main.context := map page_content (snd result) |}
       | inl e => HTTPException 500 (str e)
       end
   | _, _ => HTTPException 400 "No document has been uploaded yet"
   end, w).
Proof.
  unfold Mock.ask_question, try_except, bind, Main.call_qa_chain, ret.
  destruct (vector_store w), (qa_chain w); cbn; try reflexivity.
  destruct (call_chain _ _ _); cbn; [|reflexivity].
  rewrite isinstance_Exception. reflexivity.
Qed.

(** X11. Asking never changes the session state or the disk, whatever the
    answer, in both files. *)
Theorem ask_changes_nothing q req u w :
  snd (Main.ask_question q w) = w /\ snd (Mock.ask_question req u w) = w.
Proof. rewrite main_ask_cases, mock_ask_cases. split; reflexivity. Qed.

(** X12. The status codes of [ask_question] in [main.py]: it answers 400
    exactly when the index or the pipeline is unset, and 422 exactly when
    both are set and the question is empty or whitespace-only. *)
Theorem main_ask_status_codes q w :
  (Spec.status_of (fst (Main.ask_question q w)) = Some 400
   <-> vector_store w = None \/ qa_chain w = None)
  /\ (Spec.status_of (fst (Main.ask_question q w)) = Some 422
      <-> is_Some (vector_store w) /\ is_Some (qa_chain w)
          /\ Spec.blank q = true).
Proof.
  rewrite main_ask_cases. cbn [fst].
  destruct (vector_store w) as [index|], (qa_chain w) as [chain|]; cbn.
  - destruct (Spec.blank q); cbn.
    + split; split.
      * discriminate.
      * intros [H|H]; discriminate.
      * eauto.
      * reflexivity.
    + destruct (call_chain chain q []); cbn; (split; split);
        try discriminate; try (intros [H|H]; discriminate);
        intros (_ & _ & H); discriminate.
  - split; split; auto. + discriminate. + intros (_ & [? H] & _). discriminate.
  - split; split; auto. + discriminate. + intros ([? H] & _). discriminate.
  - split; split; auto. + discriminate. + intros ([? H] & _). discriminate.
Qed.

(** X13. The status codes of [ask_question] in [Mock.py]: it answers 400
    exactly when the index or the pipeline is unset, and never 422: an
    empty question is passed to the pipeline like any other. *)
Theorem mock_ask_status_codes req u w :
  (Spec.status_of (fst (Mock.ask_question req u w)) = Some 400
   <-> vector_store w = None \/ qa_chain w = None)
  /\ Spec.status_of (fst (Mock.ask_question req u w)) <> Some 422
  /\ (forall index chain,
        vector_store w = Some index -> qa_chain w = Some chain ->
        Mock.question req = "" ->
        fst (Mock.ask_question req u w)
        = match call_chain chain "" (Mock.chat_history req) with
          | inr (answer, documents) =>
              Return {| Main.answer := answer;
                        Main.context := map page_content documents |}
          | inl e => HTTPException 500 (str e)
          end).
Proof.
  rewrite mock_ask_cases. cbn [fst].
  destruct (vector_store w) as [index|], (qa_chain w) as [chain|]; cbn.
  - split; [|split].
    + destruct (call_chain _ _ _); cbn; split; try discriminate;
        intros [H|H]; discriminate.
    + destruct (call_chain _ _ _); discriminate.
    + intros index' chain' Hi Hc ->. injection Hc as <-.
      destruct (call_chain _ _ _) as [e|[answer documents]]; reflexivity.
  - split; [split; auto|]. split; [discriminate|]. discriminate.
  - split; [split; auto|]. split; [discriminate|]. discriminate.
  - split; [split; auto|]. split; [discriminate|]. discriminate.
Qed.

(** X14. With an index and a pipeline set, a question with visible text is
    answered by the pipeline: its answer, with the page contents of its
    source documents in the order it returned them as context.  [main.py]
    always passes an empty chat history and reports a failure of the
    pipeline as 500 behind "Internal Server Error: "; [Mock.py] passes the
    history of the request and reports the bare message. *)
Theorem ready_question_is_answered_by_the_pipeline q req u w index chain :
  vector_store w = Some index ->
  qa_chain w = Some chain ->
  Spec.blank q = false ->
  fst (Main.ask_question q w)
    = match call_chain chain q [] with
      | inr (answer, documents) =>
          Return {| Main.answer := answer;
                    Main.context := map page_content documents |}
      | inl e => HTTPException 500 ("Internal Server Error: " +:+ str e)
      end
  /\ fst (Mock.ask_question req u w)
     = match call_chain chain (Mock.question req) (Mock.chat_history req) with
       | inr (answer, documents) =>
           Return {| Main.answer := answer;
                     Main.context := map page_content documents |}
       | inl e => HTTPException 500 (str e)
       end.
Proof.
  intros Hi Hc Hb. rewrite main_ask_cases, mock_ask_cases, Hi, Hc, Hb.
  cbn [fst]. split.
  - destruct (call_chain _ _ _) as [e|[answer documents]]; reflexivity.
  - destruct (call_chain _ _ _) as [e|[answer documents]]; reflexivity.
Qed.

(** Served from a consistent state, uploads end in a consistent state. *)
Lemma main_serve_consistent uploads : forall w,
  Spec.consistent w -> Spec.consistent (snd (Main.serve_uploads uploads w)).
Proof.
  induction uploads as [|f uploads IH]; intros w Hc; [exact Hc|].
  cbn [Main.serve_uploads].
  pose proof (main_upload_consistent f w Hc) as Hc1.
  destruct (Main.upload_file f w) as [r w1]. cbn [snd] in Hc1.
  specialize (IH w1 Hc1). destruct (Main.serve_uploads uploads w1) as [rs w2].
  exact IH.
Qed.

Lemma mock_serve_consistent uploads u : forall w,
  Spec.consistent w ->
  Spec.consistent (snd (Mock.serve_uploads uploads u w)).
Proof.
  induction uploads as [|f uploads IH]; intros w Hc; [exact Hc|].
  cbn [Mock.serve_uploads].
  pose proof (mock_upload_consistent f u w Hc) as Hc1.
  destruct (Mock.upload_file f u w) as [r w1]. cbn [snd] in Hc1.
  specialize (IH w1 Hc1).
  destruct (Mock.serve_uploads uploads u w1) as [rs w2].
  exact IH.
Qed.

Lemma start_consistent disk : Spec.consistent (World None None disk).
Proof. unfold Spec.consistent. cbn. discriminate. Qed.

(** X15. Whatever uploads were served since start-up and however they
    ended, the session state never holds a pipeline without an index, in
    both files. *)
Theorem never_a_pipeline_without_an_index uploads u disk :
  let w0 := World None None disk in
  (is_Some (qa_chain (snd (Main.serve_uploads uploads w0))) ->
   is_Some (vector_store (snd (Main.serve_uploads uploads w0))))
  /\ (is_Some (qa_chain (snd (Mock.serve_uploads uploads u w0))) ->
      is_Some (vector_store (snd (Mock.serve_uploads uploads u w0)))).
Proof.
  intros w0.
  pose proof (main_serve_consistent uploads w0 (start_consistent disk)) as Hm.
  pose proof (mock_serve_consistent uploads u w0 (start_consistent disk))
    as Hk.
  unfold Spec.consistent in Hm, Hk. split.
  - intros [c Hc]. rewrite Hc in Hm. specialize (Hm eq_refl).
    destruct (vector_store (snd (Main.serve_uploads uploads w0)));
      [eauto|discriminate Hm].
  - intros [c Hc]. rewrite Hc in Hk. specialize (Hk eq_refl).
    destruct (vector_store (snd (Mock.serve_uploads uploads u w0)));
      [eauto|discriminate Hk].
Qed.

Lemma mock_ask_reads_chain req u w w' :
  qa_chain w' = qa_chain w ->
  truthy_obj (vector_store w') = truthy_obj (vector_store w) ->
  fst (Mock.ask_question req u w') = fst (Mock.ask_question req u w).
Proof.
  rewrite !mock_ask_cases. cbn [fst]. intros -> Hv.
  destruct (vector_store w'), (vector_store w); try discriminate; reflexivity.
Qed.

Lemma mock_ask_after_failed_upload f req u w :
  Spec.consistent w ->
  Spec.succeeded (fst (Mock.upload_file f u w)) = false ->
  fst (Mock.ask_question req u (snd (Mock.upload_file f u w)))
  = fst (Mock.ask_question req u w).
Proof.
  intros Hc Hf.
  pose proof (mock_failed_upload_keeps_chain f u w Hf) as Hqa.
  pose proof (mock_upload_consistent f u w Hc) as Hc'.
  unfold Spec.consistent in *. rewrite Hqa in Hc'.
  destruct (qa_chain w) as [chain|] eqn:Hchain.
  - apply mock_ask_reads_chain; [congruence|].
    rewrite Hc, Hc' by reflexivity. reflexivity.
  - rewrite !mock_ask_not_ready by (right; congruence). reflexivity.
Qed.

(** X16. After any uploads served since start-up, an upload that fails, at
    whatever stage, does not change what a question is answered: the
    answer is the one the question would have got before that upload
    (through the previous pipeline, or the not-ready error).  This holds
    for both files, also when the failed upload had already replaced the
    index. *)
Theorem failed_upload_leaves_answers_unchanged uploads f q req u disk :
  let w_main := snd (Main.serve_uploads uploads (World None None disk)) in
  let w_mock := snd (Mock.serve_uploads uploads u (World None None disk)) in
  (Spec.succeeded (fst (Main.upload_file f w_main)) = false ->
   fst (Main.ask_question q (snd (Main.upload_file f w_main)))
   = fst (Main.ask_question q w_main))
  /\ (Spec.succeeded (fst (Mock.upload_file f u w_mock)) = false ->
      fst (Mock.ask_question req u (snd (Mock.upload_file f u w_mock)))
      = fst (Mock.ask_question req u w_mock)).
Proof.
  intros w_main w_mock. split.
  - apply main_ask_after_failed_upload.
    apply main_serve_consistent, start_consistent.
  - apply mock_ask_after_failed_upload.
    apply mock_serve_consistent, start_consistent.
Qed.

(** X17. After a successful upload, a question with visible text is
    answered by the pipeline built from that upload, whatever was indexed
    before it, in both files. *)
Theorem question_after_upload_uses_the_new_pipeline f q req u w :
  Spec.blank q = false ->
  (Spec.succeeded (fst (Main.upload_file f w)) = true ->
   exists index chain,
     Spec.build_index Main.get_loader_for_file Main.embeddings (Spec.staged f)
       (<[Spec.staged f := Main.file f]> (files w)) = inr index
     /\ Spec.build_pipeline Spec.main_chat_args index = inr chain
     /\ fst (Main.ask_question q (snd (Main.upload_file f w)))
        = fst (Main.ask_question q (World (Some index) (Some chain) ∅)))
  /\ (Spec.succeeded (fst (Mock.upload_file f u w)) = true ->
      exists index chain,
        Spec.build_index Mock.get_loader_for_file Mock.embeddings
          (Spec.staged f) (<[Spec.staged f := Main.file f]> (files w))
        = inr index
        /\ Spec.build_pipeline Spec.mock_chat_args index = inr chain
        /\ fst (Mock.ask_question req u (snd (Mock.upload_file f u w)))
           = fst (Mock.ask_question req u (World (Some index) (Some chain) ∅))).
Proof.
  intros Hb. split; intros Hs.
  - destruct (main_upload_success_inv f w Hs) as (index & chain & Hi & Hp & Hu).
    exists index, chain. rewrite Hu. cbn [snd].
    split; [exact Hi|]. split; [exact Hp|].
    apply main_ask_reads_chain; reflexivity.
  - destruct (mock_upload_success_inv f u w Hs)
      as (index & chain & Hi & Hp & Hu).
    exists index, chain. rewrite Hu. cbn [snd].
    split; [exact Hi|]. split; [exact Hp|].
    apply mock_ask_reads_chain; reflexivity.
Qed.

End Questions.

(** ** The auth gate, beyond rejection *)

Section AuthGateAccepts.
Context `{SV : Services}.

(** X18. [get_current_user] returns a user exactly when the token library
    decodes the token to a payload whose subject is the text [admin], and
    the user returned is then the [admin] entry of the table: no other
    subject, and no subject that is not text, is ever accepted. *)
Theorem current_user_is_the_admin_entry token user :
  Mock.get_current_user token = Return user
  <-> exists payload,
        jwt_decode token Mock.SECRET_KEY [Mock.ALGORITHM] = inr payload
        /\ payload !! "sub" = Some (CStr "admin")
        /\ user = {| Mock.username := "admin";
                     Mock.hashed_password := "hashed_admin_password" |}.
Proof.
  rewrite get_current_user_cases.
  unfold Mock.current_user_of, Mock.users_db. split.
  - destruct (jwt_decode _ _ _) as [e|payload]; [discriminate|].
    destruct (payload !! "sub") as [[name|t]|] eqn:Hs; try discriminate.
    destruct (decide (name = "admin")) as [->|Hne].
    + rewrite lookup_singleton_eq. intros [= <-]. eauto.
    + rewrite lookup_singleton_ne by congruence. discriminate.
  - intros (payload & -> & -> & ->). reflexivity.
Qed.

(** X19. With a token that the library decodes to the subject [admin],
    both protected operations run their handler, on the [admin] entry,
    and answer what it answers. *)
Theorem accepted_token_runs_the_handler token payload f req w :
  jwt_decode token Mock.SECRET_KEY [Mock.ALGORITHM] = inr payload ->
  payload !! "sub" = Some (CStr "admin") ->
  Mock.post_upload token f w = Mock.upload_file f Demo.admin w
  /\ Mock.post_ask token req w = Mock.ask_question req Demo.admin w.
Proof.
  intros Hp Hs.
  unfold Mock.post_upload, Mock.post_ask, Mock.depends_current_user,
    Mock.get_current_user, Mock.current_user_of.
  rewrite Hp, Hs. split; reflexivity.
Qed.

(** X21. [login] decides by the user name alone, compared exactly: for
    [admin] it returns a bearer token whose payload carries the subject
    [admin] and an expiry 30 minutes after the current time, signed with
    the secret key and HS256; for every other name, the empty one and
    [Admin] included, it answers 400.  The password plays no part. *)
Theorem login_decides_by_user_name form utcnow :
  Mock.login form utcnow =
  if bool_decide (Mock.form_username form = "admin") then
    Return {| Mock.access_token :=
                jwt_encode (<["exp" := CTime (utcnow + 30 * 60)]>
                              {[ "sub" := CStr "admin" ]})
                           "your-secret-key" "HS256";
              Mock.token_type := "bearer" |}
  else HTTPException 400 "Incorrect username or password".
Proof.
  unfold Mock.login, Mock.users_db. case_bool_decide as Hn.
  - rewrite Hn. reflexivity.
  - rewrite lookup_singleton_ne by congruence. reflexivity.
Qed.

(** X22. A token returned by [login] is a bearer token, and whenever the
    token library decodes it back to a payload with the subject that was
    encoded, [get_current_user] accepts it as [admin]. *)
Theorem login_token_is_accepted form utcnow token payload :
  Mock.login form utcnow = Return token ->
  jwt_decode (Mock.access_token token) Mock.SECRET_KEY [Mock.ALGORITHM]
    = inr payload ->
  payload !! "sub" = Some (CStr (Mock.form_username form)) ->
  Mock.token_type token = "bearer"
  /\ Mock.get_current_user (Mock.access_token token) = Return Demo.admin.
Proof.
  unfold Mock.login, Mock.users_db.
  destruct (decide (Mock.form_username form = "admin")) as [Hn|Hne].
  - rewrite Hn, lookup_singleton_eq. intros [= <-]. cbn [Mock.token_type].
    intros Hp Hs. split; [reflexivity|].
    unfold Mock.get_current_user, Mock.current_user_of.
    cbn [Mock.access_token] in *.
    rewrite Hp, Hs. reflexivity.
  - rewrite lookup_singleton_ne by congruence. discriminate.
Qed.

End AuthGateAccepts.

(** ** More concrete requests *)

Section MoreScenarios.

Lemma dotless_upload_is_refused_witness :
  fst (Main.upload_file Demo.dotless Demo.cluttered)
    = HTTPException 400 "Unsupported file format: uploads/pdf"
  /\ fst (Mock.upload_file Demo.dotless Demo.admin Demo.cluttered)
     = HTTPException 500 "Unsupported file format: uploads/pdf".
Proof.
  destruct (dotless_upload_is_refused Demo.dotless Demo.admin Demo.cluttered
              eq_refl eq_refl eq_refl) as [Hmain Hmock].
  split.
  - exact (f_equal fst Hmain).
  - exact (f_equal fst Hmock).
Defined.


Lemma failed_copy_leaves_the_staged_file_witness :
  fst (Mock.upload_file Demo.full Demo.admin Demo.flaky_fresh)
    = Unhandled (Exn OSError "No space left on device")
  /\ files (snd (Mock.upload_file Demo.full Demo.admin Demo.flaky_fresh))
       !! "uploads/full.txt" = Some (String.list_byte_of_string "The ")
  (* no file of that name was there before the request *)
  /\ files Demo.flaky_fresh !! "uploads/full.txt" = None.
Proof.
  destruct (failed_copy_leaves_the_staged_file Demo.full Demo.admin
              Demo.flaky_fresh 4 (Exn OSError "No space left on device")
              eq_refl) as [Hr Hf].
  split; [exact Hr|]. split; [exact Hf|reflexivity].
Defined.

Lemma mock_failed_write_escapes_witness :
  fst (Mock.upload_file Demo.full Demo.admin Demo.flaky_fresh)
    = Unhandled (Exn OSError "No space left on device")
  /\ files (snd (Mock.upload_file Demo.full Demo.admin Demo.flaky_fresh))
       !! "uploads/full.txt" = Some (String.list_byte_of_string "The ").
Proof.
  destruct (mock_failed_write_escapes Demo.full Demo.admin Demo.flaky_fresh
              (CopyFails 4 (Exn OSError "No space left on device")) eq_refl)
    as (Hr & _ & _ & Hf).
  split; [exact Hr|exact Hf].
Defined.


Lemma successful_upload_installs_matching_pair_witness :
  Main.upload_file Demo.sky (Demo.fresh true)
    = (Return {| Main.message := "File processed successfully" |},
       @World (Demo.services true) (Some ["The sky is blue."])
              (Some ["The sky is blue."]) ∅)
  /\ Mock.upload_file Demo.grass Demo.admin (Demo.indexed true)
     = (Return {| Main.message := "File processed successfully" |},
        @World (Demo.services true) (Some ["Grass is green."])
               (Some ["Grass is green."]) ∅).
Proof.
  split.
  - destruct (proj1 (successful_upload_installs_matching_pair Demo.sky
                       Demo.admin (Demo.fresh true)) eq_refl)
      as (index & chain & Hi & Hp & Hu).
    vm_compute in Hi. injection Hi as <-.
    vm_compute in Hp. injection Hp as <-.
    rewrite Hu. reflexivity.
  - destruct (proj2 (successful_upload_installs_matching_pair Demo.grass
                       Demo.admin (Demo.indexed true)) eq_refl)
      as (index & chain & Hi & Hp & Hu).
    vm_compute in Hi. injection Hi as <-.
    vm_compute in Hp. injection Hp as <-.
    rewrite Hu. reflexivity.
Defined.

Lemma upload_replaces_session_state_wholesale_witness :
  (fst (Main.upload_file Demo.grass (Demo.indexed true))
     = fst (Main.upload_file Demo.grass (Demo.fresh true))
   /\ snd (Main.upload_file Demo.grass (Demo.indexed true))
      = snd (Main.upload_file Demo.grass (Demo.fresh true)))
  /\ (fst (Mock.upload_file Demo.grass Demo.admin (Demo.indexed true))
        = fst (Mock.upload_file Demo.grass Demo.admin (Demo.fresh true))
      /\ snd (Mock.upload_file Demo.grass Demo.admin (Demo.indexed true))
         = snd (Mock.upload_file Demo.grass Demo.admin (Demo.fresh true))).
Proof.
  destruct (upload_replaces_session_state_wholesale Demo.grass Demo.admin
              (Demo.fresh true) (Demo.indexed true) eq_refl)
    as [[Hr Hw] [Hr' Hw']].
  split; split; [exact Hr|exact (Hw eq_refl)|exact Hr'|exact (Hw' eq_refl)].
Defined.

Lemma ready_question_is_answered_by_the_pipeline_witness :
  fst (Main.ask_question "What color is the sky?" (Demo.indexed true))
    = Return {| Main.answer := "I don't know.";
                Main.context := ["The sky is blue."] |}
  /\ fst (Mock.ask_question {| Mock.question := "";
                               Mock.chat_history := [] |}
            Demo.admin (Demo.indexed true))
     = Return {| Main.answer := "I don't know.";
                 Main.context := ["The sky is blue."] |}.
Proof.
  exact (ready_question_is_answered_by_the_pipeline "What color is the sky?"
           {| Mock.question := ""; Mock.chat_history := [] |} Demo.admin
           (Demo.indexed true) ["The sky is blue."] ["The sky is blue."]
           eq_refl eq_refl eq_refl).
Defined.

Lemma never_a_pipeline_without_an_index_witness :
  is_Some (vector_store
             (snd (Main.serve_uploads [Demo.report_xyz; Demo.sky]
                     (Demo.fresh true))))
  /\ is_Some (vector_store
                (snd (Mock.serve_uploads [Demo.sky; Demo.report_xyz]
                        Demo.admin (Demo.fresh true)))).
Proof.
  destruct (@never_a_pipeline_without_an_index (Demo.services true)
              [Demo.report_xyz; Demo.sky] Demo.admin ∅) as [Hmain _].
  destruct (@never_a_pipeline_without_an_index (Demo.services true)
              [Demo.sky; Demo.report_xyz] Demo.admin ∅) as [_ Hmock].
  split.
  - apply Hmain. vm_compute. eauto.
  - apply Hmock. vm_compute. eauto.
Defined.

Lemma failed_upload_leaves_answers_unchanged_witness :
  (* an unsupported upload after a successful one *)
  (let w := snd (Main.upload_file Demo.sky (Demo.fresh true)) in
   fst (Main.ask_question "What color is the sky?"
          (snd (Main.upload_file Demo.report_xyz w)))
   = fst (Main.ask_question "What color is the sky?" w))
  (* an upload that replaced the index and then failed *)
  /\ (let w := snd (Mock.upload_file Demo.sky Demo.admin (Demo.fresh false)) in
      fst (Mock.ask_question {| Mock.question := "What color is the sky?";
                                Mock.chat_history := [] |} Demo.admin
             (snd (Mock.upload_file Demo.grass Demo.admin w)))
      = fst (Mock.ask_question {| Mock.question := "What color is the sky?";
                                  Mock.chat_history := [] |} Demo.admin w)).
Proof.
  split.
  - exact (proj1 (@failed_upload_leaves_answers_unchanged (Demo.services true)
                    [Demo.sky] Demo.report_xyz "What color is the sky?"
                    {| Mock.question := ""; Mock.chat_history := [] |}
                    Demo.admin ∅) eq_refl).
  - exact (proj2 (@failed_upload_leaves_answers_unchanged (Demo.services false)
                    [Demo.sky] Demo.grass ""
                    {| Mock.question := "What color is the sky?";
                       Mock.chat_history := [] |}
                    Demo.admin ∅) eq_refl).
Defined.

Lemma question_after_upload_uses_the_new_pipeline_witness :
  fst (Main.ask_question "What is green?"
         (snd (Main.upload_file Demo.grass (Demo.indexed true))))
    = Return {| Main.answer := "I don't know.";
                Main.context := ["Grass is green."] |}
  /\ fst (Mock.ask_question {| Mock.question := "What is green?";
                               Mock.chat_history := [] |} Demo.admin
            (snd (Mock.upload_file Demo.grass Demo.admin (Demo.indexed true))))
     = Return {| Main.answer := "I don't know.";
                 Main.context := ["Grass is green."] |}.
Proof.
  destruct (question_after_upload_uses_the_new_pipeline Demo.grass
              "What is green?"
              {| Mock.question := "What is green?"; Mock.chat_history := [] |}
              Demo.admin (Demo.indexed true) eq_refl) as [Hmain Hmock].
  split.
  - destruct (Hmain eq_refl) as (index & chain & Hi & Hp & Ha).
    vm_compute in Hi. injection Hi as <-.
    vm_compute in Hp. injection Hp as <-.
    rewrite Ha. reflexivity.
  - destruct (Hmock eq_refl) as (index & chain & Hi & Hp & Ha).
    vm_compute in Hi. injection Hi as <-.
    vm_compute in Hp. injection Hp as <-.
    rewrite Ha. reflexivity.
Defined.

Lemma accepted_token_runs_the_handler_witness :
  Mock.post_upload "token-for-admin" Demo.sky (Demo.fresh true)
    = Mock.upload_file Demo.sky Demo.admin (Demo.fresh true)
  /\ Mock.post_ask "token-for-admin"
       {| Mock.question := "What color is the sky?";
          Mock.chat_history := [] |} (Demo.indexed true)
     = Mock.ask_question
         {| Mock.question := "What color is the sky?";
            Mock.chat_history := [] |} Demo.admin (Demo.indexed true).
Proof.
  split.
  - exact (proj1 (accepted_token_runs_the_handler "token-for-admin"
                    {[ "sub" := CStr "admin" ]} Demo.sky
                    {| Mock.question := ""; Mock.chat_history := [] |}
                    (Demo.fresh true) eq_refl eq_refl)).
  - exact (proj2 (accepted_token_runs_the_handler "token-for-admin"
                    {[ "sub" := CStr "admin" ]} Demo.sky
                    {| Mock.question := "What color is the sky?";
                       Mock.chat_history := [] |}
                    (Demo.indexed true) eq_refl eq_refl)).
Defined.

Lemma login_token_is_accepted_witness :
  @Mock.get_current_user (Demo.services true) "token-for-admin"
  = Return Demo.admin.
Proof.
  exact (proj2 (@login_token_is_accepted (Demo.services true)
                  {| Mock.form_username := "admin";
                     Mock.form_password := "hashed_admin_password" |}
                  0
                  {| Mock.access_token := "token-for-admin";
                     Mock.token_type := "bearer" |}
                  {[ "sub" := CStr "admin" ]}
                  eq_refl eq_refl eq_refl)).
Defined.

End MoreScenarios.
